(** * Honeycomb: the hex factory of [src/hex/index.js]

    A shallow embedding of the bound [Hex] constructor produced by
    [createFactory], over an explicit JavaScript object store.

    - Numbers are IEEE 754 binary64 values (Rocq's primitive [float]), so
      [0] and [-0] are distinct values that compare equal with [===].
    - Objects live in a store ([heap]) and are passed by reference ([VRef]),
      so that [Object.assign] on an argument is visible to the caller.
    - Every own property is an enumerable, writable data property of an
      extensible object; frozen objects, accessors, proxies and symbols are
      outside the model, and so is an own key named [__proto__], which
      [Object.assign] hands to the setter of [Object.prototype].
    - An array holds its elements as own properties under their indices; an
      index that it does not own lies past its length. *)

From Stdlib Require Import Floats ZArith Lia.
From stdpp Require Import gmap strings pretty.

Open Scope string_scope.

(** ** Values and the object store *)

Definition loc := positive.

Inductive value : Type :=
| VUndefined
| VNull
| VBool (b : bool)
| VNum (n : float)
| VStr (s : string)
| VRef (l : loc).

(** What [Object.prototype.toString] reports for an object: a plain object,
    an array, a [Number] wrapper, or anything else (functions, dates, the
    other wrappers). *)
Inductive class : Type := CObject | CArray | CNumber | COther.

(** An object: its class, its prototype ([None] for [Object.prototype] and the
    other built-in prototypes, whose properties are not modelled) and its own
    properties. An array keeps its elements under the keys ["0"], ["1"], ... *)
Record object : Type := Obj {
  cls : class;
  proto : option loc;
  props : gmap string value
}.

Abbreviation heap := (gmap loc object).

Inductive error : Type := TypeError.

Inductive result (A : Type) : Type :=
| Ok (a : A)
| Throw (e : error)
| OutOfFuel.
Arguments Ok {A} a.
Arguments Throw {A} e.
Arguments OutOfFuel {A}.

(** [new] objects take the first unused location. *)
Definition alloc (h : heap) (o : object) : loc * heap :=
  let l := fresh (dom h) in (l, <[l := o]> h).

(** The object literal [{}]. *)
Definition empty_object : object := Obj CObject None ∅.

(** Own property, [undefined] when absent. *)
Definition own_prop (h : heap) (v : value) (k : string) : value :=
  match v with
  | VRef l =>
      match h !! l with
      | Some o => default VUndefined (props o !! k)
      | None => VUndefined
      end
  | _ => VUndefined
  end.

(** Property read [o.k] along the prototype chain. *)
Fixpoint lookup_chain (n : nat) (h : heap) (l : loc) (k : string) : value :=
  match n with
  | O => VUndefined
  | S n' =>
      match h !! l with
      | None => VUndefined
      | Some o =>
          match props o !! k with
          | Some v => v
          | None =>
              match proto o with
              | Some p => lookup_chain n' h p k
              | None => VUndefined
              end
          end
      end
  end.

Definition Get (h : heap) (v : value) (k : string) : value :=
  match v with
  | VRef l => lookup_chain (S (size h)) h l k
  | _ => VUndefined
  end.

(** ** axis.js type predicates

    [axis.isX(v)] compares [Object.prototype.toString.call(v)] with
    ["[object X]"]. *)

Definition class_of (h : heap) (v : value) : option class :=
  match v with
  | VRef l => cls <$> h !! l
  | _ => None
  end.

Definition isObject (h : heap) (v : value) : bool :=
  match class_of h v with Some CObject => true | _ => false end.

Definition isArray (h : heap) (v : value) : bool :=
  match class_of h v with Some CArray => true | _ => false end.

Definition isNumber (h : heap) (v : value) : bool :=
  match v with
  | VNum _ => true
  | _ => match class_of h v with Some CNumber => true | _ => false end
  end.

(** ** Helpers imported by index.js *)

(** Modelled from the spec: [unsignNegativeZero] of [../utils], which is not
    among the sources. The spec has it normalise a coordinate that would be
    [-0] to [0]; every other value is returned unchanged. [n === 0] holds of
    both zeros. *)
Definition unsignNegativeZero (v : value) : value :=
  match v with
  | VNum n => if (n =? 0)%float then VNum 0 else v
  | _ => v
  end.

(** Modelled from the spec: the resolver built by
    [statics.thirdCoordinateFactory({ unsignNegativeZero })]; [./statics] is
    not among the sources. The spec gives [z = -(x + y)], negative-zero
    normalised. *)
Definition thirdCoordinate (x y : float) : value :=
  unsignNegativeZero (VNum (- (x + y))%float).

(** ** Object.assign *)

(** The own enumerable string-keyed properties of a source. A primitive string
    exposes its characters under their indices; the other primitives expose
    nothing. *)
Definition string_props (s : string) : gmap string value :=
  list_to_map
    (imap (fun i c => (pretty i, VStr (String c EmptyString)))
          (String.list_ascii_of_string s)).

Definition own_props (h : heap) (v : value) : gmap string value :=
  match v with
  | VRef l => match h !! l with Some o => props o | None => ∅ end
  | VStr s => string_props s
  | _ => ∅
  end.

(** [ToObject]: [undefined] and [null] raise, a primitive is wrapped. *)
Definition ToObject (v : value) (h : heap) : result (loc * heap) :=
  match v with
  | VUndefined | VNull => Throw TypeError
  | VRef l => Ok (l, h)
  | VNum _ => Ok (alloc h (Obj CNumber None ∅))
  | VBool _ => Ok (alloc h (Obj COther None ∅))
  | VStr s => Ok (alloc h (Obj COther None (string_props s)))
  end.

(** Copy the given properties onto the object at [target], in place. The
    target is extensible and its properties are writable data properties, so
    that no assignment fails; a key named [__proto__] among the properties
    is outside the model, see [no_proto_key]. *)
Definition set_props (h : heap) (target : loc) (src : gmap string value) : heap :=
  match h !! target with
  | Some o => <[target := Obj (cls o) (proto o) (src ∪ props o)]> h
  | None => h
  end.

(** One source of [Object.assign(target, source)]; [undefined] and [null]
    sources are skipped (they have no properties). The own properties of the
    source are copied as [set_props] copies them, under the same
    assumptions. *)
Definition assign_from (h : heap) (target : loc) (source : value) : heap :=
  set_props h target (own_props h source).

(** The object literal [{ x, y }] as a property map. *)
Definition xy_props (x y : value) : gmap string value :=
  <["x" := x]> (<["y" := y]> ∅).

(** ** The bound constructor *)

(** A parameter with the default value [{}]: the literal is evaluated (and
    allocated) when the argument is [undefined]. *)
Definition default_param (v : value) (h : heap) : value * heap :=
  match v with
  | VUndefined => let '(l, h') := alloc h empty_object in (VRef l, h')
  | _ => (v, h)
  end.

(** Lines 154-165: normalise, then infer the missing one of [x], [y]. *)
Definition infer (h : heap) (x y : value) : value * value :=
  let x := unsignNegativeZero x in
  let y := unsignNegativeZero y in
  match length (List.filter (isNumber h) [x; y]) with
  | 2 => (x, y)
  | 1 =>
      let x := if isNumber h x then x else y in
      let y := if isNumber h y then y else x in
      (x, y)
  | _ => (VNum 0, VNum 0)
  end.

Section Factory.

(** [finalPrototype], captured by the closure. *)
Variable finalPrototype : loc.

(** Lines 167-173:
    [Object.assign(Object.create(finalPrototype), this,
                   Object.assign(customProps, { x, y }))].
    The inner call writes [x] and [y] onto [customProps] itself. *)
Definition build (this customProps x y : value) (h : heap)
  : result (loc * heap) :=
  let '(target, h) := alloc h (Obj CObject (Some finalPrototype) ∅) in
  match ToObject customProps h with
  | Ok (cp, h) =>
      let h := set_props h cp (xy_props x y) in
      let h := assign_from h target this in
      let h := assign_from h target (VRef cp) in
      Ok (target, h)
  | Throw e => Throw e
  | OutOfFuel => OutOfFuel
  end.

(** [function Hex(xOrProps, y, customProps = {})], lines 138-174, called with
    receiver [this]. The fuel bounds the depth of the self-call of the object
    branch; that call is a plain call, whose receiver is [undefined] in a
    module. The array pattern [[x, y] = xOrProps] reads the elements [0] and
    [1], [undefined] when absent. *)
Fixpoint Hex (fuel : nat) (this xOrProps y customProps : value) (h : heap)
  : result (loc * heap) :=
  match fuel with
  | O => OutOfFuel
  | S fuel' =>
      let '(customProps, h) := default_param customProps h in
      if isObject h xOrProps then
        Hex fuel' VUndefined (Get h xOrProps "x") (Get h xOrProps "y") xOrProps h
      else if isArray h xOrProps then
        let '(l, h') := alloc h empty_object in
        let '(x, y) := infer h' (own_prop h' xOrProps "0") (own_prop h' xOrProps "1") in
        build this (VRef l) x y h'
      else
        let '(x, y) := infer h xOrProps y in
        build this customProps x y h
  end.

End Factory.

(** ** The factory *)

Section CreateFactory.

(** Imports of index.js that are not among the sources: the constant
    [ORIENTATIONS.POINTY] of [./constants] and the [Point] factory of
    [../point], which may allocate. *)
Variable POINTY : value.
Variable Point : value -> heap -> value * heap.

(** The methods of the [defaultPrototype] literal, lines 61-78. *)
Definition method_names : list string :=
  ["add"; "coordinates"; "corners"; "distance"; "equals"; "height"; "isFlat";
   "isPointy"; "lerp"; "nudge"; "oppositeCornerDistance";
   "oppositeSideDistance"; "round"; "set"; "subtract"; "toPoint"; "toString";
   "width"].

(** Modelled from the spec: the value of a method entry comes from
    [./prototype], which is not among the sources; each is taken to be a
    function object of its own. The keys are those of lines 61-78. *)
Fixpoint alloc_methods (names : list string) (h : heap)
  : gmap string value * heap :=
  match names with
  | [] => (∅, h)
  | n :: ns =>
      let '(l, h) := alloc h (Obj COther None ∅) in
      let '(m, h) := alloc_methods ns h in
      (<[n := VRef l]> m, h)
  end.

(** [createFactory(prototype = {})], lines 50-83, up to the bound [Hex]: the
    location of [finalPrototype] and the store it lives in. Line 85 installs
    the resolver [thirdCoordinate] on the function [Hex], which is not an
    object of the store; the constructor never reads it. *)
Definition createFactory (prototype : value) (h : heap) : loc * heap :=
  let '(prototype, h) := default_param prototype h in
  let '(methods, h) := alloc_methods method_names h in
  let defaultPrototype :=
    Obj CObject None
      (<["__isHoneycombHex" := VBool true]>
         (<["orientation" := POINTY]>
            (<["origin" := VNum 0]> (<["size" := VNum 1]> methods)))) in
  let '(finalPrototype, h) := alloc h defaultPrototype in
  let h := assign_from h finalPrototype prototype in
  let '(origin, h) := Point (Get h (VRef finalPrototype) "origin") h in
  let h := set_props h finalPrototype {["origin" := origin]} in
  (finalPrototype, h).

End CreateFactory.

(** The properties of the [defaultPrototype] literal, lines 53-78, given its
    methods. *)
Definition default_props (POINTY : value) (methods : gmap string value)
  : gmap string value :=
  <["__isHoneycombHex" := VBool true]>
    (<["orientation" := POINTY]>
       (<["origin" := VNum 0]> (<["size" := VNum 1]> methods))).

(** Modelled from the spec: [Point] of [../point] at the default origin [0],
    which the spec calls the zero point. *)
Definition zero_point (_ : value) (h : heap) : value * heap :=
  let '(l, h') := alloc h (Obj CObject None (xy_props (VNum 0) (VNum 0))) in
  (VRef l, h').

(** [extendHex()]: the factory with no custom prototype, in an empty store. *)
Definition default_factory : loc * heap :=
  createFactory (VStr "POINTY") zero_point VUndefined ∅.

(** ** What a caller observes of a hex *)

(** [ToNumber] on what the arithmetic below meets: numbers, and [undefined]
    for a missing coordinate, which reads as [NaN]. Strings and objects, which
    [+] does not add as numbers, are left out: they read as [NaN] too. *)
Definition ToNumber (v : value) : float :=
  match v with
  | VNum n => n
  | VNull => 0
  | VBool true => 1
  | VBool false => 0
  | _ => nan
  end.

(** [hex.x + hex.y + hex.z == 0]. *)
Definition cube_sum_is_zero (h : heap) (hex : value) : bool :=
  (ToNumber (Get h hex "x") + ToNumber (Get h hex "y") + ToNumber (Get h hex "z")
   =? 0)%float.

(** What the caller reads from the hex a call returned. *)
Definition read (r : result (loc * heap)) (k : string) : option value :=
  match r with
  | Ok (t, hf) => Some (Get hf (VRef t) k)
  | _ => None
  end.

Definition satisfies_cube_invariant (r : result (loc * heap)) : option bool :=
  match r with
  | Ok (t, hf) => Some (cube_sum_is_zero hf (VRef t))
  | _ => None
  end.

(** Modelled from the spec: [coordinates()] of [./prototype], which is not
    among the sources; the spec has it return a snapshot [{x, y, z}] of the
    receiver. *)
Definition coordinates (h : heap) (hex : value) : value * value * value :=
  (Get h hex "x", Get h hex "y", Get h hex "z").

(** ** Binary64 numbers of the statements *)







(** * The methods that return a hex

    [./prototype] is not among the sources: [add], [subtract] and [lerp] are
    modelled from the spec, over the constructor of index.js. *)

Section Methods.

Variable finalPrototype : loc.







End Methods.

(** * Predicates of the statements *)

(** A reference is valid when it points into the store. *)
Definition valid (h : heap) (v : value) : Prop :=
  match v with
  | VRef l => is_Some (h !! l)
  | _ => True
  end.

(** A read of [k] that is settled by the object itself. *)
Definition reads_own (o : object) (k : string) : Prop :=
  is_Some (props o !! k) \/ proto o = None.

Definition field (o : object) (k : string) : value :=
  default VUndefined (props o !! k).

(** A hex of the factory, as [Hex] builds them: a plain object on
    [finalPrototype] whose own [x] and [y] are numbers other than [-0]. *)
Definition is_hex (fp : loc) (h : heap) (o : object) : Prop :=
  cls o = CObject /\ proto o = Some fp /\
  exists vx vy,
    props o !! "x" = Some vx /\ props o !! "y" = Some vy /\
    isNumber h vx = true /\ isNumber h vy = true /\
    vx <> VNum (-0) /\ vy <> VNum (-0).


(** The properties [m] have no key named [__proto__]. [Object.assign] sets
    such a key of a source through the setter that the target inherits from
    [Object.prototype]: the target gets another prototype and no own
    property. The statements on what [Object.assign] copies keep to sources
    without that key. *)
Definition no_proto_key (m : gmap string value) : bool :=
  match m !! "__proto__" with
  | Some _ => false
  | None => true
  end.

(** No object of the store has an own key named [__proto__]. *)
Definition no_proto_keys (h : heap) : bool :=
  forallb (fun lo => no_proto_key (props lo.2)) (map_to_list h).

(** [o'] is [o] but for its own [x] and [y]. *)
Definition same_but_xy (o o' : object) : Prop :=
  cls o' = cls o /\ proto o' = proto o /\
  forall k, k <> "x" -> k <> "y" -> props o' !! k = props o !! k.

(** The three layers of the merged result, by key: the coordinates, the
    custom properties, the bound properties. *)
Definition merged (xy custom bound : gmap string value) (k : string) : option value :=
  match xy !! k with
  | Some v => Some v
  | None => match custom !! k with
            | Some v => Some v
            | None => bound !! k
            end
  end.

(** The chain of [x] fields from the plain object [l]: after [d] steps it
    reaches the plain object [l'], whose [x] is neither a plain object nor an
    array. *)
Inductive x_chain (h : heap) : nat -> loc -> loc -> object -> Prop :=
| x_chain_end l o :
    h !! l = Some o -> cls o = CObject ->
    reads_own o "x" -> reads_own o "y" ->
    valid h (field o "x") -> valid h (field o "y") ->
    isObject h (field o "x") = false -> isArray h (field o "x") = false ->
    x_chain h 0 l l o
| x_chain_step d l o l2 l' o' :
    h !! l = Some o -> cls o = CObject -> props o !! "x" = Some (VRef l2) ->
    x_chain h d l2 l' o' ->
    x_chain h (S d) l l' o'.

(** Plain objects whose [x] is again one of them: an object that is its own
    [x], or a longer cycle. *)
Definition closed_under_x (h : heap) (S : loc -> Prop) : Prop :=
  forall l, S l ->
    exists o l', h !! l = Some o /\ cls o = CObject /\
                 props o !! "x" = Some (VRef l') /\ S l'.

(** * Concrete stores and scenarios

    The default factory [extendHex()] in an empty store, and the calls the
    closed statements below evaluate. *)

Definition fp0 : loc := default_factory.1.
Definition store0 : heap := default_factory.2.

(** [store0] extended with one plain object literal. *)
Definition with_literal (l : list (string * value)) : loc * heap :=
  alloc store0 (Obj CObject None (list_to_map l)).

(** The array [[1, 2]] and the literal [{ x: 1, y: 2 }]. *)
Definition array_1_2 : loc * heap :=
  alloc store0 (Obj CArray None (list_to_map [("0", VNum 1); ("1", VNum 2)])).

Definition literal_1_2 : loc * heap :=
  with_literal [("x", VNum 1); ("y", VNum 2)].

(** The literal [{ x: 1, y: 2, z: 99, color: "red" }]. *)
Definition literal_z99 : loc * heap :=
  with_literal [("x", VNum 1); ("y", VNum 2); ("z", VNum 99); ("color", VStr "red")].

(** The literal [{ x: 1, y: 2, z: -0 }]. *)
Definition literal_neg_zero : loc * heap :=
  with_literal [("x", VNum 1); ("y", VNum 2); ("z", VNum (-0))].

(** The hex [Hex(4, -2, { color: "red" })] of the default factory, and the
    store after its construction. *)
Definition red_literal : loc * heap := with_literal [("color", VStr "red")].

Definition red_hex : loc * heap :=
  match Hex fp0 1 VUndefined (VNum 4) (VNum (-2)) (VRef red_literal.1) red_literal.2 with
  | Ok r => r
  | _ => (1%positive, ∅)
  end.

Definition red_hex_object : object :=
  Obj CObject (Some fp0)
    (list_to_map [("x", VNum 4); ("y", VNum (-2)); ("color", VStr "red")]).

(** The literal [{ x: -0, y: 3, color: "red" }]. *)
Definition neg_zero_x_object : object :=
  Obj CObject None
    (list_to_map [("x", VNum (-0)); ("y", VNum 3); ("color", VStr "red")]).

Definition literal_neg_zero_x : loc * heap := alloc store0 neg_zero_x_object.










(** The objects of the literals above. *)
Definition red_object : object :=
  Obj CObject None (list_to_map [("color", VStr "red")]).

Definition array_1_2_object : object :=
  Obj CArray None (list_to_map [("0", VNum 1); ("1", VNum 2)]).

Definition inner_object : object :=
  Obj CObject None (list_to_map [("x", VNum 1); ("y", VNum 2)]).

(** The literal [{ x: { x: 1, y: 2 }, color: "red" }], its inner object
    being the one of [literal_1_2]. *)
Definition outer_object : object :=
  Obj CObject None (list_to_map [("x", VRef literal_1_2.1); ("color", VStr "red")]).

Definition outer_literal : loc * heap := alloc literal_1_2.2 outer_object.

(** An object that is its own [x]: [o = {}; o.x = o]. *)
Definition self_x_loc : loc := fresh (dom store0).

Definition self_x_object : object :=
  Obj CObject None (list_to_map [("x", VRef self_x_loc)]).

Definition self_x_store : heap := <[self_x_loc := self_x_object]> store0.

(** [finalPrototype] of the default factory. *)
Definition final_prototype_object : object := default empty_object (store0 !! fp0).

(** [extendHex({ size: 50, customProperty: "custom" })] in an empty store. *)
Definition custom_prototype_object : object :=
  Obj CObject None (list_to_map [("size", VNum 50); ("customProperty", VStr "custom")]).

Definition custom_prototype : loc * heap := alloc ∅ custom_prototype_object.

Definition custom_factory : loc * heap :=
  createFactory (VStr "POINTY") zero_point (VRef custom_prototype.1) custom_prototype.2.

(** * Properties *)

Ltac float_neq :=
  let E := fresh "E" in
  intros E; apply (f_equal PrimFloat.classify) in E; vm_compute in E; discriminate E.

(** ** Negative zero *)

Lemma neg_zero_neq_zero : (-0)%float <> 0%float.
Proof.
  intro E. apply (f_equal PrimFloat.classify) in E. vm_compute in E. discriminate E.
Qed.

Lemma VNum_inj a b : VNum a = VNum b -> a = b.
Proof.
  intros E.
  exact (f_equal (fun v => match v with VNum n => n | _ => a end) E).
Qed.

Lemma VNum_zero_not_neg_zero : VNum 0 <> VNum (-0).
Proof. intros E. apply VNum_inj in E. symmetry in E. exact (neg_zero_neq_zero E). Qed.

Lemma unsignNegativeZero_not_neg_zero v :
  unsignNegativeZero v <> VNum (-0).
Proof.
  destruct v as [| | b | n | s | l]; simpl; try discriminate.
  destruct (n =? 0)%float eqn:E.
  - exact VNum_zero_not_neg_zero.
  - intro H. apply VNum_inj in H. subst n. vm_compute in E. discriminate E.
Qed.

(** [n === 0] singles out the two zeros. *)
Lemma eqb_zero_cases (a : float) :
  (a =? 0)%float = true -> a = 0%float \/ a = (-0)%float.
Proof.
  intros H. rewrite FloatAxioms.eqb_spec in H.
  rewrite <- (FloatAxioms.SF2Prim_Prim2SF a).
  change (Prim2SF 0) with (S754_zero false) in H.
  destruct (Prim2SF a) as [s | s | | s m e]; unfold SFeqb, SFcompare in H;
    try discriminate H; try (destruct s; discriminate H).
  destruct s; [right|left]; reflexivity.
Qed.

Lemma unsignNegativeZero_id v :
  v <> VNum (-0) -> unsignNegativeZero v = v.
Proof.
  intros Hv. destruct v as [| | b | n | s | l]; simpl; try reflexivity.
  destruct (n =? 0)%float eqn:E; [|reflexivity].
  destruct (eqb_zero_cases n E) as [-> | ->]; [reflexivity|].
  exfalso. apply Hv. reflexivity.
Qed.

Lemma unsignNegativeZero_isNumber h v :
  isNumber h (unsignNegativeZero v) = isNumber h v.
Proof.
  destruct v as [| | b | n | s | l]; simpl; try reflexivity.
  destruct (n =? 0)%float; reflexivity.
Qed.

Lemma infer_not_neg_zero h x y :
  (infer h x y).1 <> VNum (-0) /\ (infer h x y).2 <> VNum (-0).
Proof.
  pose proof (unsignNegativeZero_not_neg_zero x) as Hx.
  pose proof (unsignNegativeZero_not_neg_zero y) as Hy.
  pose proof VNum_zero_not_neg_zero as H0.
  unfold infer. simpl.
  destruct (isNumber h (unsignNegativeZero x)), (isNumber h (unsignNegativeZero y));
    simpl; auto.
Qed.

(** ** The store *)

Lemma alloc_spec h o l h' :
  alloc h o = (l, h') -> h !! l = None /\ h' = <[l := o]> h.
Proof.
  unfold alloc. intros E. injection E as <- <-. split; [|reflexivity].
  apply not_elem_of_dom, is_fresh.
Qed.

Lemma alloc_lookup_old h o l h' k (ok : object) :
  alloc h o = (l, h') -> h !! k = Some ok -> h' !! k = Some ok.
Proof.
  intros E Hk. apply alloc_spec in E as [Hl ->].
  rewrite lookup_insert_ne; [exact Hk|]. intros ->. congruence.
Qed.

Lemma alloc_class_of h o l h' v c :
  alloc h o = (l, h') -> class_of h v = Some c -> class_of h' v = Some c.
Proof.
  intros E. destruct v; simpl; try discriminate.
  destruct (h !! l0) as [ok|] eqn:Hk; simpl; [|discriminate].
  intros Hc. rewrite (alloc_lookup_old _ _ _ _ _ _ E Hk). exact Hc.
Qed.

Lemma set_props_lookup h t src (o : object) :
  h !! t = Some o ->
  set_props h t src !! t = Some (Obj (cls o) (proto o) (src ∪ props o)).
Proof. intros H. unfold set_props. rewrite H. apply lookup_insert_eq. Qed.

Lemma set_props_lookup_ne h t src k :
  t <> k -> set_props h t src !! k = h !! k.
Proof.
  intros H. unfold set_props. destruct (h !! t); [|reflexivity].
  apply lookup_insert_ne. exact H.
Qed.

Lemma alloc_class_of_eq h o l h' v :
  valid h v -> alloc h o = (l, h') -> class_of h' v = class_of h v.
Proof.
  intros Hv E. destruct v; simpl in *; try reflexivity.
  destruct Hv as [ok Hk]. rewrite (alloc_lookup_old _ _ _ _ _ _ E Hk), Hk. reflexivity.
Qed.

Lemma alloc_valid h o l h' v :
  valid h v -> alloc h o = (l, h') -> valid h' v.
Proof.
  intros Hv E. destruct v; simpl in *; try exact I.
  destruct Hv as [ok Hk]. exists ok. exact (alloc_lookup_old _ _ _ _ _ _ E Hk).
Qed.

Lemma Get_reads_own h l o k :
  h !! l = Some o -> reads_own o k -> Get h (VRef l) k = field o k.
Proof.
  intros Hl Hr. unfold Get, field. simpl. rewrite Hl.
  destruct (props o !! k) as [v|] eqn:E; [reflexivity|].
  destruct Hr as [[v Hv]|Hp]; [congruence|]. rewrite Hp. reflexivity.
Qed.

Lemma default_param_spec v h v' h' :
  default_param v h = (v', h') ->
  v' <> VUndefined /\
  (v' = VNull <-> v = VNull) /\
  (valid h v -> valid h' v') /\
  (forall k (ok : object), h !! k = Some ok -> h' !! k = Some ok) /\
  (forall w, valid h w -> class_of h' w = class_of h w).
Proof.
  unfold default_param. intros E.
  destruct v; try (injection E as <- <-; repeat split; auto; discriminate).
  destruct (alloc h empty_object) as [l h1] eqn:Ea. injection E as <- <-.
  split; [discriminate|]. split; [split; discriminate|].
  split.
  { intros _. simpl. apply alloc_spec in Ea as [_ ->]. rewrite lookup_insert_eq. eauto. }
  split.
  - intros k ok Hk. exact (alloc_lookup_old _ _ _ _ _ _ Ea Hk).
  - intros w Hw. exact (alloc_class_of_eq _ _ _ _ _ Hw Ea).
Qed.

Lemma xy_props_x x y : xy_props x y !! "x" = Some x.
Proof. unfold xy_props. apply lookup_insert_eq. Qed.

Lemma xy_props_y x y : xy_props x y !! "y" = Some y.
Proof.
  unfold xy_props. rewrite lookup_insert_ne; [|discriminate]. apply lookup_insert_eq.
Qed.

Lemma xy_props_other x y k : k <> "x" -> k <> "y" -> xy_props x y !! k = None.
Proof.
  intros Hx Hy. unfold xy_props.
  rewrite lookup_insert_ne; [|congruence]. rewrite lookup_insert_ne; [|congruence].
  apply lookup_empty.
Qed.

(** The two nested [Object.assign] calls of the return statement, once the
    target [t] and the custom properties object [c] are in the store. *)
Lemma assign_chain t c oc pt x y this (h1 : heap) :
  c <> t ->
  h1 !! t = Some (Obj CObject pt ∅) ->
  h1 !! c = Some oc ->
  let h2 := set_props h1 c (xy_props x y) in
  let hf := assign_from (assign_from h2 t this) t (VRef c) in
  hf !! c = Some (Obj (cls oc) (proto oc) (xy_props x y ∪ props oc)) /\
  hf !! t = Some (Obj CObject pt ((xy_props x y ∪ props oc) ∪ own_props h2 this)) /\
  (forall k, k <> c -> k <> t -> hf !! k = h1 !! k).
Proof.
  intros Hne H1t H1c h2. set (h3 := assign_from h2 t this). intros hf.
  assert (H2c : h2 !! c = Some (Obj (cls oc) (proto oc) (xy_props x y ∪ props oc))).
  { unfold h2. apply set_props_lookup. exact H1c. }
  assert (H2t : h2 !! t = Some (Obj CObject pt ∅)).
  { unfold h2. rewrite set_props_lookup_ne; [exact H1t|exact Hne]. }
  assert (H3t : h3 !! t = Some (Obj CObject pt (own_props h2 this ∪ ∅))).
  { unfold h3, assign_from. rewrite (set_props_lookup _ _ _ _ H2t). reflexivity. }
  assert (H3c : h3 !! c = Some (Obj (cls oc) (proto oc) (xy_props x y ∪ props oc))).
  { unfold h3, assign_from. rewrite set_props_lookup_ne; [exact H2c|congruence]. }
  assert (E3 : own_props h3 (VRef c) = xy_props x y ∪ props oc).
  { simpl. rewrite H3c. reflexivity. }
  assert (Ef : hf = set_props h3 t (xy_props x y ∪ props oc)).
  { unfold hf. unfold assign_from at 1. rewrite E3. reflexivity. }
  rewrite Ef.
  split; [|split].
  - rewrite set_props_lookup_ne; [exact H3c|congruence].
  - rewrite (set_props_lookup _ _ _ _ H3t). simpl.
    rewrite (right_id_L ∅ (∪)). reflexivity.
  - intros k Hkc Hkt. rewrite set_props_lookup_ne; [|congruence].
    unfold h3, assign_from. rewrite set_props_lookup_ne; [|congruence].
    unfold h2. apply set_props_lookup_ne. congruence.
Qed.

Lemma valid_unsignNegativeZero h v : valid h v -> valid h (unsignNegativeZero v).
Proof.
  destruct v as [| | b | n | s | l]; simpl; auto. destruct (n =? 0)%float; simpl; auto.
Qed.

Lemma isNumber_class h h' v :
  class_of h' v = class_of h v -> isNumber h' v = isNumber h v.
Proof. intros E. unfold isNumber. rewrite E. reflexivity. Qed.

(** [infer] only looks at the classes of its arguments. *)
Lemma infer_heap (h h' : heap) x y :
  (forall w, valid h w -> class_of h' w = class_of h w) ->
  valid h x -> valid h y -> infer h' x y = infer h x y.
Proof.
  intros Hc Hx Hy. unfold infer. simpl.
  rewrite (isNumber_class h h' (unsignNegativeZero x))
    by (apply Hc, valid_unsignNegativeZero, Hx).
  rewrite (isNumber_class h h' (unsignNegativeZero y))
    by (apply Hc, valid_unsignNegativeZero, Hy).
  reflexivity.
Qed.

Lemma isNumber_valid h v : isNumber h v = true -> valid h v.
Proof.
  destruct v as [| | b | n | s | l]; simpl; auto.
  unfold isNumber. simpl. destruct (h !! l); [eauto|discriminate].
Qed.

Lemma set_props_class_of h t src w : class_of (set_props h t src) w = class_of h w.
Proof.
  destruct w as [| | b | n | s | l]; simpl; try reflexivity.
  unfold set_props. destruct (h !! t) as [o|] eqn:E; [|reflexivity].
  destruct (decide (t = l)) as [->|Hne].
  - rewrite lookup_insert_eq, E. reflexivity.
  - rewrite lookup_insert_ne; [reflexivity|exact Hne].
Qed.

(** Both inferred coordinates are numbers. *)
Lemma infer_isNumber h x y :
  isNumber h (infer h x y).1 = true /\ isNumber h (infer h x y).2 = true.
Proof.
  unfold infer. simpl.
  destruct (isNumber h (unsignNegativeZero x)) eqn:Ex,
           (isNumber h (unsignNegativeZero y)) eqn:Ey; simpl;
    rewrite ?Ex, ?Ey; simpl; rewrite ?Ex, ?Ey; auto.
Qed.

Section FactoryFacts.

Variable fp : loc.

(** [build] on custom properties that are an object of the store: the result
    is a new object, the custom properties object is written in place, and
    nothing else changes. *)
Lemma build_ref this c oc x y h :
  h !! c = Some oc ->
  exists t hf,
    build fp this (VRef c) x y h = Ok (t, hf) /\
    h !! t = None /\
    hf !! c = Some (Obj (cls oc) (proto oc) (xy_props x y ∪ props oc)) /\
    hf !! t = Some (Obj CObject (Some fp)
                     ((xy_props x y ∪ props oc) ∪
                      own_props (set_props (<[t := Obj CObject (Some fp) ∅]> h) c
                                           (xy_props x y)) this)) /\
    (forall k, k <> c -> k <> t -> hf !! k = h !! k).
Proof.
  intros Hc. unfold build.
  destruct (alloc h (Obj CObject (Some fp) ∅)) as [t h1'] eqn:Ea.
  apply alloc_spec in Ea as [Ht ->].
  assert (Hne : c <> t) by congruence.
  set (h1 := <[t := Obj CObject (Some fp) ∅]> h).
  assert (H1t : h1 !! t = Some (Obj CObject (Some fp) ∅)) by apply lookup_insert_eq.
  assert (H1c : h1 !! c = Some oc).
  { unfold h1. rewrite lookup_insert_ne; [exact Hc|congruence]. }
  destruct (assign_chain t c oc (Some fp) x y this h1 Hne H1t H1c) as (Rc & Rt & Rk).
  eexists t, _. split; [reflexivity|]. split; [exact Ht|].
  split; [exact Rc|]. split; [exact Rt|].
  intros k Hkc Hkt. rewrite (Rk k Hkc Hkt). unfold h1. apply lookup_insert_ne. congruence.
Qed.

(** [build] succeeds on every custom properties value but [null] (and
    [undefined], which the default parameter has replaced), and the result
    carries the given [x] and [y]. *)
Lemma build_ok this cp x y h :
  cp <> VUndefined -> cp <> VNull -> valid h cp ->
  exists t hf o,
    build fp this cp x y h = Ok (t, hf) /\
    h !! t = None /\
    hf !! t = Some o /\ cls o = CObject /\ proto o = Some fp /\
    props o !! "x" = Some x /\ props o !! "y" = Some y /\
    (this = VUndefined -> props o = xy_props x y ∪ own_props h cp) /\
    (forall k ok, h !! k = Some ok -> VRef k <> cp -> hf !! k = Some ok).
Proof.
  intros Hu Hn Hv.
  assert (Hx : forall (m1 m2 : gmap string value),
             ((xy_props x y ∪ m1) ∪ m2) !! "x" = Some x).
  { intros m1 m2. apply lookup_union_Some_l, lookup_union_Some_l, xy_props_x. }
  assert (Hy : forall (m1 m2 : gmap string value),
             ((xy_props x y ∪ m1) ∪ m2) !! "y" = Some y).
  { intros m1 m2. apply lookup_union_Some_l, lookup_union_Some_l, xy_props_y. }
  assert (Hprim : forall w,
    (forall h1, ToObject cp h1 = Ok (alloc h1 w)) ->
    (forall k, VRef k <> cp) ->
    props w = own_props h cp ->
    exists t hf o,
      build fp this cp x y h = Ok (t, hf) /\
      h !! t = None /\
      hf !! t = Some o /\ cls o = CObject /\ proto o = Some fp /\
      props o !! "x" = Some x /\ props o !! "y" = Some y /\
      (this = VUndefined -> props o = xy_props x y ∪ own_props h cp) /\
      (forall k ok, h !! k = Some ok -> VRef k <> cp -> hf !! k = Some ok)).
  { intros w HT Hnr Hw. unfold build.
    destruct (alloc h (Obj CObject (Some fp) ∅)) as [t h1] eqn:Ea.
    rewrite HT. destruct (alloc h1 w) as [c h1'] eqn:Ec.
    pose proof (alloc_lookup_old _ _ _ _ t (Obj CObject (Some fp) ∅) Ec) as H1t.
    apply alloc_spec in Ea as [Ht E1].
    assert (Ht1 : h1 !! t = Some (Obj CObject (Some fp) ∅)).
    { rewrite E1. apply lookup_insert_eq. }
    specialize (H1t Ht1).
    pose proof (alloc_spec _ _ _ _ Ec) as [Hc E1'].
    assert (Hne : c <> t) by congruence.
    assert (H1c : h1' !! c = Some w).
    { rewrite E1'. apply lookup_insert_eq. }
    destruct (assign_chain t c w (Some fp) x y this h1' Hne H1t H1c) as (Rc & Rt & Rk).
    eexists t, _, _. split; [reflexivity|]. split; [exact Ht|].
    split; [exact Rt|]. simpl. split; [reflexivity|]. split; [reflexivity|].
    split; [apply Hx|]. split; [apply Hy|]. split.
    - intros ->. simpl. rewrite (right_id_L ∅ (∪)), Hw. reflexivity.
    - intros k ok Hk _.
      assert (Hkt : t <> k) by congruence.
      assert (Hk1 : h1 !! k = Some ok).
      { rewrite E1, lookup_insert_ne; [exact Hk|exact Hkt]. }
      assert (Hkc : c <> k) by congruence.
      rewrite Rk; [|congruence|congruence].
      rewrite E1', lookup_insert_ne; [exact Hk1|exact Hkc]. }
  destruct cp as [| | b | n | s | c]; try congruence.
  - apply (Hprim (Obj COther None ∅)); [reflexivity|discriminate|reflexivity].
  - apply (Hprim (Obj CNumber None ∅)); [reflexivity|discriminate|reflexivity].
  - apply (Hprim (Obj COther None (string_props s))); [reflexivity|discriminate|reflexivity].
  - destruct Hv as [oc Hc].
    destruct (build_ref this c oc x y h Hc) as (t & hf & E & Ht & Rc & Rt & Rk).
    exists t, hf. eexists. split; [exact E|]. split; [exact Ht|].
    split; [exact Rt|]. simpl. split; [reflexivity|]. split; [reflexivity|].
    split; [apply Hx|]. split; [apply Hy|]. split.
    + intros ->. simpl. rewrite (right_id_L ∅ (∪)), Hc. reflexivity.
    + intros k ok Hk Hkc. rewrite Rk; [exact Hk|congruence|congruence].
Qed.

Lemma build_null this x y h : build fp this VNull x y h = Throw TypeError.
Proof.
  unfold build. destruct (alloc h (Obj CObject (Some fp) ∅)). reflexivity.
Qed.

Lemma build_class_of this cp x y h t hf w :
  build fp this cp x y h = Ok (t, hf) -> valid h w -> class_of hf w = class_of h w.
Proof.
  unfold build. intros E Hw.
  destruct (alloc h (Obj CObject (Some fp) ∅)) as [t' h1] eqn:Ea.
  pose proof (alloc_class_of_eq _ _ _ _ _ Hw Ea) as C1.
  pose proof (alloc_valid _ _ _ _ _ Hw Ea) as V1.
  destruct (ToObject cp h1) as [[c h2]| |] eqn:ET; try discriminate E.
  injection E as <- <-. unfold assign_from. rewrite !set_props_class_of.
  rewrite <- C1.
  destruct cp as [| | b | m | s | l]; simpl in ET; try discriminate ET;
    try (injection ET as <- <-; reflexivity);
    match type of ET with
    | Ok (alloc h1 ?o) = _ =>
        destruct (alloc h1 o) as [c' h2'] eqn:Ew; injection ET as <- <-;
        exact (alloc_class_of_eq _ _ _ _ _ V1 Ew)
    end.
Qed.

Lemma Hex_S n this x y cp h :
  Hex fp (S n) this x y cp h =
    let '(cp', h') := default_param cp h in
    if isObject h' x then
      Hex fp n VUndefined (Get h' x "x") (Get h' x "y") x h'
    else if isArray h' x then
      let '(l, h'') := alloc h' empty_object in
      let '(x', y') := infer h'' (own_prop h'' x "0") (own_prop h'' x "1") in
      build fp this (VRef l) x' y' h''
    else
      let '(x', y') := infer h' x y in
      build fp this cp' x' y' h'.
Proof. reflexivity. Qed.

(** One step of [Hex] on a first argument that is neither a plain object nor
    an array. *)
Lemma Hex_scalar n this x y cp h :
  valid h x -> isObject h x = false -> isArray h x = false ->
  Hex fp (S n) this x y cp h =
    let '(cp', h') := default_param cp h in
    let '(x', y') := infer h' x y in
    build fp this cp' x' y' h'.
Proof.
  intros Hv Ho Ha. rewrite Hex_S.
  destruct (default_param cp h) as [cp' h'] eqn:Ed.
  apply default_param_spec in Ed as (_ & _ & _ & _ & Hc).
  unfold isObject, isArray in *. rewrite (Hc x Hv).
  destruct (class_of h x) as [[]|]; try discriminate; reflexivity.
Qed.

Lemma Hex_scalar_ok n this x y cp h :
  valid h x -> valid h y -> valid h cp ->
  isObject h x = false -> isArray h x = false -> cp <> VNull ->
  exists t hf o,
    Hex fp (S n) this x y cp h = Ok (t, hf) /\
    h !! t = None /\
    hf !! t = Some o /\ cls o = CObject /\ proto o = Some fp /\
    props o !! "x" = Some (infer h x y).1 /\
    props o !! "y" = Some (infer h x y).2 /\
    (this = VUndefined ->
     props o = xy_props (infer h x y).1 (infer h x y).2 ∪ own_props h cp) /\
    (forall k ok, h !! k = Some ok -> VRef k <> cp -> hf !! k = Some ok).
Proof.
  intros Hx Hy Hcp Ho Ha Hn. rewrite (Hex_scalar n this x y cp h Hx Ho Ha).
  destruct (default_param cp h) as [cp' h'] eqn:Ed.
  pose proof (default_param_spec _ _ _ _ Ed) as (Hu & Hnull & Hval & Hfr & Hc).
  rewrite (infer_heap h h' x y Hc Hx Hy).
  destruct (infer h x y) as [x' y'] eqn:Ei. simpl.
  assert (Hn' : cp' <> VNull) by (intros E; apply Hn, Hnull, E).
  destruct (build_ok this cp' x' y' h' Hu Hn' (Hval Hcp))
    as (t & hf & o & E & Ht & Hft & Hcls & Hpr & Hpx & Hpy & Hthis & Hframe).
  exists t, hf, o. split; [exact E|].
  assert (Ht0 : h !! t = None).
  { destruct (h !! t) as [ok|] eqn:Hk; [|reflexivity]. rewrite (Hfr _ _ Hk) in Ht. discriminate. }
  split; [exact Ht0|]. split; [exact Hft|]. split; [exact Hcls|]. split; [exact Hpr|].
  split; [exact Hpx|]. split; [exact Hpy|].
  assert (Eo : own_props h' cp' = own_props h cp /\
               forall k ok, h !! k = Some ok -> VRef k <> cp -> VRef k <> cp').
  { unfold default_param in Ed.
    destruct cp as [| | b | m | s | c];
      [|injection Ed as <- <-; split; auto ..].
    destruct (alloc h empty_object) as [l h1] eqn:Ea. injection Ed as <- <-.
    apply alloc_spec in Ea as [Hl ->]. split.
    - simpl. rewrite lookup_insert_eq. reflexivity.
    - intros k ok Hk _ E'. congruence. }
  destruct Eo as [Eo Hne]. split.
  - intros Hthis'. rewrite (Hthis Hthis'), Eo. reflexivity.
  - intros k ok Hk Hkc. apply Hframe; [exact (Hfr _ _ Hk)|exact (Hne _ _ Hk Hkc)].
Qed.

Lemma Hex_scalar_null n this x y h :
  valid h x -> isObject h x = false -> isArray h x = false ->
  Hex fp (S n) this x y VNull h = Throw TypeError.
Proof.
  intros Hx Ho Ha. rewrite (Hex_scalar n this x y VNull h Hx Ho Ha). simpl.
  destruct (infer h x y). apply build_null.
Qed.

(** Two steps of [Hex] on a plain object whose [x] is neither a plain object
    nor an array: the object itself is passed on as the custom properties and
    is written in place. *)
Lemma Hex_object n this l o y cp h :
  h !! l = Some o -> cls o = CObject ->
  reads_own o "x" -> reads_own o "y" ->
  valid h (field o "x") -> valid h (field o "y") ->
  isObject h (field o "x") = false -> isArray h (field o "x") = false ->
  exists t hf,
    Hex fp (S (S n)) this (VRef l) y cp h = Ok (t, hf) /\
    h !! t = None /\
    hf !! l = Some (Obj CObject (proto o)
                     (xy_props (infer h (field o "x") (field o "y")).1
                               (infer h (field o "x") (field o "y")).2 ∪ props o)) /\
    hf !! t = Some (Obj CObject (Some fp)
                     (xy_props (infer h (field o "x") (field o "y")).1
                               (infer h (field o "x") (field o "y")).2 ∪ props o)) /\
    (forall k ok, h !! k = Some ok -> k <> l -> hf !! k = Some ok).
Proof.
  intros Hl Hcls Hrx Hry Hvx Hvy Hox Hax. rewrite Hex_S.
  destruct (default_param cp h) as [cp' h'] eqn:Ed.
  pose proof (default_param_spec _ _ _ _ Ed) as (_ & _ & _ & Hfr & Hc).
  pose proof (Hfr _ _ Hl) as Hl'.
  assert (Hobj : isObject h' (VRef l) = true).
  { unfold isObject. simpl. rewrite Hl'. simpl. rewrite Hcls. reflexivity. }
  rewrite Hobj.
  rewrite (Get_reads_own h' l o "x" Hl' Hrx), (Get_reads_own h' l o "y" Hl' Hry).
  set (xv := field o "x") in *. set (yv := field o "y") in *.
  assert (Hvx' : valid h' xv).
  { destruct xv; simpl in *; auto. destruct Hvx as [ok Hk]. exists ok. exact (Hfr _ _ Hk). }
  assert (Hox' : isObject h' xv = false).
  { unfold isObject in *. rewrite (Hc xv Hvx). exact Hox. }
  assert (Hax' : isArray h' xv = false).
  { unfold isArray in *. rewrite (Hc xv Hvx). exact Hax. }
  rewrite (Hex_scalar n VUndefined xv yv (VRef l) h' Hvx' Hox' Hax'). simpl.
  rewrite (infer_heap h h' xv yv Hc Hvx Hvy).
  destruct (infer h xv yv) as [x' y'] eqn:Ei. simpl.
  destruct (build_ref VUndefined l o x' y' h' Hl') as (t & hf & E & Ht & Rc & Rt & Rk).
  exists t, hf. split; [exact E|].
  assert (Ht0 : h !! t = None).
  { destruct (h !! t) as [ok|] eqn:Hk; [|reflexivity]. rewrite (Hfr _ _ Hk) in Ht. discriminate. }
  split; [exact Ht0|]. rewrite Hcls in Rc. split; [exact Rc|].
  split.
  - rewrite Rt. simpl. rewrite (right_id_L ∅ (∪)). reflexivity.
  - intros k ok Hk Hkl. rewrite Rk; [exact (Hfr _ _ Hk)|exact Hkl|congruence].
Qed.

(** More fuel does not change a result. *)
Lemma Hex_fuel_mono n this x y cp h r :
  Hex fp n this x y cp h = r -> r <> OutOfFuel -> Hex fp (S n) this x y cp h = r.
Proof.
  revert this x y cp h r. induction n as [|n IH]; intros this x y cp h r E Hr.
  - simpl in E. congruence.
  - rewrite Hex_S in E. rewrite Hex_S.
    destruct (default_param cp h) as [cp' h'].
    destruct (isObject h' x); [|exact E].
    apply IH; assumption.
Qed.

(** An object that is its own [x] keeps the constructor calling itself: no
    amount of fuel gives a result (the engine ends such a call with a
    [RangeError]). *)
Lemma Hex_self_reference n this l o y cp h :
  h !! l = Some o -> cls o = CObject -> props o !! "x" = Some (VRef l) ->
  Hex fp n this (VRef l) y cp h = OutOfFuel.
Proof.
  revert this y cp h. induction n as [|n IH]; intros this y cp h Hl Hcls Hx.
  - reflexivity.
  - rewrite Hex_S.
    destruct (default_param cp h) as [cp' h'] eqn:Ed.
    pose proof (default_param_spec _ _ _ _ Ed) as (_ & _ & _ & Hfr & _).
    pose proof (Hfr _ _ Hl) as Hl'.
    assert (Hobj : isObject h' (VRef l) = true).
    { unfold isObject. simpl. rewrite Hl'. simpl. rewrite Hcls. reflexivity. }
    rewrite Hobj.
    rewrite (Get_reads_own h' l o "x" Hl') by (left; rewrite Hx; eauto).
    unfold field. rewrite Hx. simpl.
    apply IH; assumption.
Qed.

(** What every call that returns has built: a new plain object on
    [finalPrototype] whose own [x] and [y] are numbers other than negative
    zero. *)
Lemma Hex_result n this x y cp h t hf :
  valid h cp ->
  Hex fp n this x y cp h = Ok (t, hf) ->
  h !! t = None /\
  exists o vx vy,
    hf !! t = Some o /\ cls o = CObject /\ proto o = Some fp /\
    props o !! "x" = Some vx /\ vx <> VNum (-0) /\ isNumber hf vx = true /\
    props o !! "y" = Some vy /\ vy <> VNum (-0) /\ isNumber hf vy = true.
Proof.
  revert this x y cp h. induction n as [|n IH]; intros this x y cp h Hcp E.
  - discriminate E.
  - rewrite Hex_S in E.
    destruct (default_param cp h) as [cp' h'] eqn:Ed.
    pose proof (default_param_spec _ _ _ _ Ed) as (Hu & Hnull & Hval & Hfr & Hc).
    assert (Hold : forall k, h' !! k = None -> h !! k = None).
    { intros k Hk. destruct (h !! k) as [ok|] eqn:Hk'; [|reflexivity].
      rewrite (Hfr _ _ Hk') in Hk. discriminate. }
    destruct (isObject h' x) eqn:Ho.
    { assert (Hx : valid h' x).
      { unfold isObject in Ho. destruct x; simpl in *; try discriminate.
        destruct (h' !! l); [eauto|discriminate]. }
      destruct (IH _ _ _ _ _ Hx E) as [Ht R]. split; [exact (Hold _ Ht)|exact R]. }
    assert (Hfin : forall this' cp'' xv yv h'',
      cp'' <> VUndefined -> valid h'' cp'' ->
      (forall k, h'' !! k = None -> h' !! k = None) ->
      (let '(x', y') := infer h'' xv yv in build fp this' cp'' x' y' h'') = Ok (t, hf) ->
      h !! t = None /\
      exists o vx vy,
        hf !! t = Some o /\ cls o = CObject /\ proto o = Some fp /\
        props o !! "x" = Some vx /\ vx <> VNum (-0) /\ isNumber hf vx = true /\
        props o !! "y" = Some vy /\ vy <> VNum (-0) /\ isNumber hf vy = true).
    { intros this' cp'' xv yv h'' Hu' Hv' Hsub Eb.
      destruct (infer_not_neg_zero h'' xv yv) as [Nx Ny].
      destruct (infer_isNumber h'' xv yv) as [Ix Iy].
      destruct (infer h'' xv yv) as [x' y']. simpl in Nx, Ny, Ix, Iy.
      assert (Hdec : cp'' = VNull \/ cp'' <> VNull).
      { destruct cp''; (left; reflexivity) || (right; discriminate). }
      destruct Hdec as [->|Hn'].
      { rewrite build_null in Eb. discriminate Eb. }
      destruct (build_ok this' cp'' x' y' h'' Hu' Hn' Hv')
        as (t' & hf' & o & E' & Ht & Hft & Hcls & Hpr & Hpx & Hpy & _ & _).
      pose proof (build_class_of _ _ _ _ _ _ _ x' Eb (isNumber_valid _ _ Ix)) as Cx.
      pose proof (build_class_of _ _ _ _ _ _ _ y' Eb (isNumber_valid _ _ Iy)) as Cy.
      rewrite E' in Eb. injection Eb as <- <-.
      split; [exact (Hold _ (Hsub _ Ht))|].
      exists o, x', y'.
      rewrite (isNumber_class _ _ _ Cx), (isNumber_class _ _ _ Cy). auto 12. }
    destruct (isArray h' x).
    + destruct (alloc h' empty_object) as [l h''] eqn:Ea.
      apply (Hfin this (VRef l) (own_prop h'' x "0") (own_prop h'' x "1") h'');
        [discriminate| | |exact E].
      * simpl. apply alloc_spec in Ea as [_ ->]. rewrite lookup_insert_eq. eauto.
      * intros k Hk. destruct (h' !! k) as [ok|] eqn:Hk'; [|reflexivity].
        rewrite (alloc_lookup_old _ _ _ _ _ _ Ea Hk') in Hk. discriminate.
    + apply (Hfin this cp' x y h'); [exact Hu|exact (Hval Hcp)|auto|exact E].
Qed.

End FactoryFacts.

(** ** C1: the cube invariant *)

(** C1 (code defect). The claim: every produced hex satisfies
    [x + y + z = 0]. The constructor merges [{ x, y }] only: it never
    derives or stores a third coordinate, although its documentation says the
    third coordinate is set from [Hex.thirdCoordinate]. In the default
    factory, [Hex(1, 2)] has [x = 1] and [y = 2], reads [z] as [undefined],
    and [x + y + z == 0] is false, where the resolver would give [-3]; and
    so it is for [Hex([1, 2])] and [Hex({ x: 1, y: 2 })]. *)
Theorem C1_Hex_1_2_has_no_third_coordinate :
  read (Hex fp0 1 VUndefined (VNum 1) (VNum 2) VUndefined store0) "x" = Some (VNum 1) /\
  read (Hex fp0 1 VUndefined (VNum 1) (VNum 2) VUndefined store0) "y" = Some (VNum 2) /\
  read (Hex fp0 1 VUndefined (VNum 1) (VNum 2) VUndefined store0) "z" = Some VUndefined /\
  satisfies_cube_invariant
    (Hex fp0 1 VUndefined (VNum 1) (VNum 2) VUndefined store0) = Some false /\
  thirdCoordinate 1 2 = VNum (-3) /\
  satisfies_cube_invariant
    (Hex fp0 1 VUndefined (VRef array_1_2.1) VUndefined VUndefined array_1_2.2)
    = Some false /\
  satisfies_cube_invariant
    (Hex fp0 2 VUndefined (VRef literal_1_2.1) VUndefined VUndefined literal_1_2.2)
    = Some false.
Proof. vm_compute. repeat split; reflexivity. Qed.

(** On positional arguments the stored third coordinate is whatever the
    custom properties happen to carry under ["z"]. *)
Lemma Hex_scalar_own_z fp n x y cp h :
  valid h x -> valid h y -> valid h cp ->
  isObject h x = false -> isArray h x = false -> cp <> VNull ->
  exists t hf o,
    Hex fp (S n) VUndefined x y cp h = Ok (t, hf) /\ hf !! t = Some o /\
    props o !! "z" = own_props h cp !! "z".
Proof.
  intros Hx Hy Hcp Ho Ha Hn.
  destruct (Hex_scalar_ok fp n VUndefined x y cp h Hx Hy Hcp Ho Ha Hn)
    as (t & hf & o & E & _ & Ht & _ & _ & _ & _ & Hp & _).
  exists t, hf, o. split; [exact E|]. split; [exact Ht|].
  rewrite (Hp eq_refl). rewrite lookup_union_r; [reflexivity|].
  apply xy_props_other; discriminate.
Qed.

(** ** C2: the third argument *)


(** C2 (code defect, the one of C1). The claim: [Hex(1, 2, 5)] raises no
    error and the third coordinate is recomputed, the result being
    [{ x: 1, y: 2, z: -3 }]. In the default factory the call returns, where
    the example of line 124 has it throw; but the third parameter is
    [customProps], the number [5] has no own properties to merge, and no
    third coordinate is computed: the result has [x = 1] and [y = 2], reads
    [z] as [undefined] and does not meet [x + y + z == 0], where the
    resolver would give [-3]. *)
Theorem C2_Hex_1_2_5_has_no_third_coordinate :
  read (Hex fp0 1 VUndefined (VNum 1) (VNum 2) (VNum 5) store0) "x" = Some (VNum 1) /\
  read (Hex fp0 1 VUndefined (VNum 1) (VNum 2) (VNum 5) store0) "y" = Some (VNum 2) /\
  read (Hex fp0 1 VUndefined (VNum 1) (VNum 2) (VNum 5) store0) "z" = Some VUndefined /\
  satisfies_cube_invariant
    (Hex fp0 1 VUndefined (VNum 1) (VNum 2) (VNum 5) store0) = Some false /\
  thirdCoordinate 1 2 = VNum (-3).
Proof. vm_compute. repeat split; reflexivity. Qed.

(** ** C3: coordinate inference *)

(** The inference on [x] and [y], case by case. *)
Lemma infer_both h x y :
  isNumber h x = true -> isNumber h y = true ->
  infer h x y = (unsignNegativeZero x, unsignNegativeZero y).
Proof.
  intros Hx Hy. unfold infer. simpl.
  rewrite !unsignNegativeZero_isNumber, Hx, Hy. reflexivity.
Qed.

Lemma infer_only_x h x y :
  isNumber h x = true -> isNumber h y = false ->
  infer h x y = (unsignNegativeZero x, unsignNegativeZero x).
Proof.
  intros Hx Hy. unfold infer. simpl.
  rewrite !unsignNegativeZero_isNumber, Hx, Hy. reflexivity.
Qed.

Lemma infer_only_y h x y :
  isNumber h x = false -> isNumber h y = true ->
  infer h x y = (unsignNegativeZero y, unsignNegativeZero y).
Proof.
  intros Hx Hy. unfold infer. simpl.
  rewrite !unsignNegativeZero_isNumber, Hx, Hy. reflexivity.
Qed.

Lemma infer_neither h x y :
  isNumber h x = false -> isNumber h y = false ->
  infer h x y = (VNum 0, VNum 0).
Proof.
  intros Hx Hy. unfold infer. simpl.
  rewrite !unsignNegativeZero_isNumber, Hx, Hy. reflexivity.
Qed.

(** The stored [x] and [y] of a plain call on positional arguments follow
    the inference: both kept, the missing one copied, or both [0]. *)
Lemma Hex_positional_xy fp h x y :
  valid h x -> valid h y -> isObject h x = false -> isArray h x = false ->
  exists t hf o,
    Hex fp 1 VUndefined x y VUndefined h = Ok (t, hf) /\ hf !! t = Some o /\
    props o = xy_props (infer h x y).1 (infer h x y).2.
Proof.
  intros Hx Hy Ho Ha.
  destruct (Hex_scalar_ok fp 0 VUndefined x y VUndefined h Hx Hy I Ho Ha)
    as (t & hf & o & E & _ & Ht & _ & _ & _ & _ & Hp & _); [discriminate|].
  exists t, hf, o. split; [exact E|]. split; [exact Ht|].
  rewrite (Hp eq_refl). simpl. apply (right_id_L ∅ (∪)).
Qed.

(** C3 (code defect, the one of C1). The claim: [Hex(n)] yields [x = n],
    [y = n], [z = -2n] and [Hex()] yields [x = 0], [y = 0], [z = 0]. The
    inference of [x] and [y] is as claimed, but no [z] is stored: in the
    default factory [Hex(1)] has [x = 1], [y = 1] and reads [z] as
    [undefined] where the resolver gives [-2], and [Hex()] has [x = 0],
    [y = 0] and reads [z] as [undefined]. *)
Theorem C3_Hex_1_and_Hex_infer_no_third_coordinate :
  read (Hex fp0 1 VUndefined (VNum 1) VUndefined VUndefined store0) "x" = Some (VNum 1) /\
  read (Hex fp0 1 VUndefined (VNum 1) VUndefined VUndefined store0) "y" = Some (VNum 1) /\
  read (Hex fp0 1 VUndefined (VNum 1) VUndefined VUndefined store0) "z" = Some VUndefined /\
  thirdCoordinate 1 1 = VNum (-2) /\
  read (Hex fp0 1 VUndefined VUndefined VUndefined VUndefined store0) "x" = Some (VNum 0) /\
  read (Hex fp0 1 VUndefined VUndefined VUndefined VUndefined store0) "y" = Some (VNum 0) /\
  read (Hex fp0 1 VUndefined VUndefined VUndefined VUndefined store0) "z" = Some VUndefined.
Proof. vm_compute. repeat split; reflexivity. Qed.

(** ** C4: object input *)

(** C4 (code defect, the one of C1). The claim: the third coordinate of an
    object argument is never consulted and always re-derived. The object is
    passed on whole as the custom properties and only [{ x, y }] is merged
    over it, so its [z] is neither consulted nor re-derived: it reaches the
    result as it is. For [{ x: 1, y: 2, z: 99, color: "red" }] the result has
    [x = 1], [y = 2], the custom [color], and [z = 99] where the resolver
    gives [-3]. *)
Theorem C4_object_z_is_carried_not_rederived :
  read (Hex fp0 2 VUndefined (VRef literal_z99.1) VUndefined VUndefined literal_z99.2) "x"
    = Some (VNum 1) /\
  read (Hex fp0 2 VUndefined (VRef literal_z99.1) VUndefined VUndefined literal_z99.2) "y"
    = Some (VNum 2) /\
  read (Hex fp0 2 VUndefined (VRef literal_z99.1) VUndefined VUndefined literal_z99.2) "color"
    = Some (VStr "red") /\
  read (Hex fp0 2 VUndefined (VRef literal_z99.1) VUndefined VUndefined literal_z99.2) "z"
    = Some (VNum 99) /\
  thirdCoordinate 1 2 = VNum (-3).
Proof. vm_compute. repeat split; reflexivity. Qed.

(** ** C5: negative zero *)

(** No call stores a negative zero under [x] or [y], and the resolver never
    returns one. *)
Lemma Hex_xy_never_neg_zero fp n this x y cp h t hf :
  valid h cp ->
  Hex fp n this x y cp h = Ok (t, hf) ->
  own_prop hf (VRef t) "x" <> VNum (-0) /\ own_prop hf (VRef t) "y" <> VNum (-0).
Proof.
  intros Hcp E.
  destruct (Hex_result fp n this x y cp h t hf Hcp E)
    as (_ & o & vx & vy & Ht & _ & _ & Hx & Nx & _ & Hy & Ny & _).
  unfold own_prop. rewrite Ht, Hx, Hy. simpl. split; assumption.
Qed.

Lemma thirdCoordinate_never_neg_zero x y : thirdCoordinate x y <> VNum (-0).
Proof. apply unsignNegativeZero_not_neg_zero. Qed.

(** C5 (code defect, the one of C1). The claim: no coordinate of a produced
    hex is ever [-0]. The stored [x] and [y] never are, and the resolver never
    returns [-0], but the resolver is never applied: a [z] on the argument
    object is stored as it is. For [{ x: 1, y: 2, z: -0 }] the result has
    [z = -0], which [1 / z = -Infinity] tells from [0]. *)
Theorem C5_object_z_negative_zero_is_stored :
  read (Hex fp0 2 VUndefined (VRef literal_neg_zero.1) VUndefined VUndefined
            literal_neg_zero.2) "z" = Some (VNum (-0)) /\
  (1 / (-0) =? neg_infinity)%float = true /\
  (1 / 0 =? neg_infinity)%float = false.
Proof. vm_compute. repeat split; reflexivity. Qed.

(** ** C6: cloning *)

Lemma isNumber_not_object h v :
  isNumber h v = true -> isObject h v = false /\ isArray h v = false.
Proof.
  unfold isNumber, isObject, isArray.
  destruct v as [| | b | n | s | l]; simpl; auto.
  destruct (cls <$> h !! l) as [[]|]; auto; discriminate.
Qed.

Lemma xy_props_union_id (m : gmap string value) vx vy :
  m !! "x" = Some vx -> m !! "y" = Some vy -> xy_props vx vy ∪ m = m.
Proof.
  intros Hx Hy. apply map_eq. intros k.
  destruct (decide (k = "x")) as [->|Nx].
  { rewrite Hx. apply lookup_union_Some_l, xy_props_x. }
  destruct (decide (k = "y")) as [->|Ny].
  { rewrite Hy. apply lookup_union_Some_l, xy_props_y. }
  apply lookup_union_r, xy_props_other; assumption.
Qed.

Lemma Get_same_object h l1 l2 o1 o2 k :
  h !! l1 = Some o1 -> h !! l2 = Some o2 ->
  props o1 = props o2 -> proto o1 = proto o2 ->
  Get h (VRef l1) k = Get h (VRef l2) k.
Proof.
  intros H1 H2 Ep Eq. unfold Get. simpl. rewrite H1, H2, Ep, Eq. reflexivity.
Qed.

(** Every object the constructor returns is such a hex. *)
Lemma Hex_builds_hex fp n this x y cp h t hf :
  valid h cp ->
  Hex fp n this x y cp h = Ok (t, hf) ->
  exists o, hf !! t = Some o /\ is_hex fp hf o.
Proof.
  intros Hcp E.
  destruct (Hex_result fp n this x y cp h t hf Hcp E)
    as (_ & o & vx & vy & Ht & Hcls & Hpr & Hx & Nx & Ix & Hy & Ny & Iy).
  exists o. split; [exact Ht|]. split; [exact Hcls|]. split; [exact Hpr|].
  exists vx, vy. auto 10.
Qed.

(** C6. Passing a hex [l] of the factory, custom properties included, to the
    bound constructor returns a new object [t]: it is not in the store before
    the call, so it is distinct from [l]; it has the own properties of [l]
    (same coordinates, same custom properties) and the same prototype; [l]
    itself is as before; and [coordinates()] agrees on the two. The receiver
    and the other arguments of the call play no part, and neither does the
    fuel past the two calls the clone takes. *)
Theorem C6_clone_of_a_hex fp fuel h l o this y cp :
  h !! l = Some o -> is_hex fp h o ->
  exists t hf,
    Hex fp (S (S fuel)) this (VRef l) y cp h = Ok (t, hf) /\
    h !! t = None /\ t <> l /\
    hf !! t = Some (Obj CObject (Some fp) (props o)) /\
    hf !! l = Some o /\
    coordinates hf (VRef t) = coordinates hf (VRef l).
Proof.
  intros Hl (Hcls & Hpr & vx & vy & Hx & Hy & Nx & Ny & Zx & Zy).
  assert (Fx : field o "x" = vx) by (unfold field; rewrite Hx; reflexivity).
  assert (Fy : field o "y" = vy) by (unfold field; rewrite Hy; reflexivity).
  destruct (isNumber_not_object h vx Nx) as [Ox Ax].
  destruct (Hex_object fp fuel this l o y cp h Hl Hcls) as (t & hf & E & Ht & Rl & Rt & _).
  - left. rewrite Hx. eauto.
  - left. rewrite Hy. eauto.
  - rewrite Fx. exact (isNumber_valid h vx Nx).
  - rewrite Fy. exact (isNumber_valid h vy Ny).
  - rewrite Fx. exact Ox.
  - rewrite Fx. exact Ax.
  - rewrite Fx, Fy, (infer_both h vx vy Nx Ny) in Rl, Rt. simpl in Rl, Rt.
    rewrite (unsignNegativeZero_id vx Zx), (unsignNegativeZero_id vy Zy) in Rl, Rt.
    rewrite (xy_props_union_id (props o) vx vy Hx Hy) in Rl, Rt.
    assert (Eo : Obj CObject (proto o) (props o) = o).
    { destruct o as [c p m]. simpl in *. subst c. reflexivity. }
    rewrite Eo in Rl.
    exists t, hf. split; [exact E|]. split; [exact Ht|].
    split; [congruence|]. split; [exact Rt|]. split; [exact Rl|].
    unfold coordinates.
    rewrite !(Get_same_object hf t l _ _ _ Rt Rl eq_refl (eq_sym Hpr)). reflexivity.
Qed.

Lemma C6_witness :
  exists t hf,
    Hex fp0 2 VUndefined (VRef red_hex.1) VUndefined VUndefined red_hex.2 = Ok (t, hf) /\
    red_hex.2 !! t = None /\ t <> red_hex.1 /\
    hf !! t = Some (Obj CObject (Some fp0) (props red_hex_object)) /\
    hf !! red_hex.1 = Some red_hex_object /\
    coordinates hf (VRef t) = coordinates hf (VRef red_hex.1).
Proof.
  apply (C6_clone_of_a_hex fp0 0 red_hex.2 red_hex.1 red_hex_object).
  - vm_compute. reflexivity.
  - split; [reflexivity|]. split; [reflexivity|].
    exists (VNum 4), (VNum (-2)).
    split; [vm_compute; reflexivity|]. split; [vm_compute; reflexivity|].
    split; [reflexivity|]. split; [reflexivity|].
    split; intros E; apply VNum_inj in E;
      apply (f_equal PrimFloat.classify) in E; vm_compute in E; discriminate E.
Defined.

(** ** C10: the argument object is written in place *)

Lemma xy_props_union_insert (m : gmap string value) vx vy :
  xy_props vx vy ∪ m = <["x" := vx]> (<["y" := vy]> m).
Proof.
  unfold xy_props.
  rewrite <- !insert_union_l. rewrite (left_id_L ∅ (∪)). reflexivity.
Qed.

(** C10. Called with a plain object [l] whose [x] and [y] are read from the
    object itself and whose [x] is not in turn a plain object or an array,
    the constructor assigns the computed [x] and [y] onto [l] itself: after
    the call the store holds at [l] the same object with [x] and [y]
    overwritten, by the values the returned hex has, which are never [-0] and
    are the normalised [x] and [y] of [l] when both were numbers. Every other
    object of the store is as before. *)
Theorem C10_object_argument_is_mutated fp fuel h l o this y cp :
  h !! l = Some o -> cls o = CObject ->
  reads_own o "x" -> reads_own o "y" ->
  valid h (field o "x") -> valid h (field o "y") ->
  isObject h (field o "x") = false -> isArray h (field o "x") = false ->
  exists t hf vx vy,
    Hex fp (S (S fuel)) this (VRef l) y cp h = Ok (t, hf) /\
    t <> l /\
    hf !! l = Some (Obj CObject (proto o) (<["x" := vx]> (<["y" := vy]> (props o)))) /\
    own_prop hf (VRef t) "x" = vx /\ own_prop hf (VRef t) "y" = vy /\
    vx <> VNum (-0) /\ vy <> VNum (-0) /\
    (isNumber h (field o "x") = true -> isNumber h (field o "y") = true ->
     vx = unsignNegativeZero (field o "x") /\ vy = unsignNegativeZero (field o "y")) /\
    (forall k ok, h !! k = Some ok -> k <> l -> hf !! k = Some ok).
Proof.
  intros Hl Hcls Hrx Hry Hvx Hvy Hox Hax.
  destruct (Hex_object fp fuel this l o y cp h Hl Hcls Hrx Hry Hvx Hvy Hox Hax)
    as (t & hf & E & Ht & Rl & Rt & Rk).
  destruct (infer_not_neg_zero h (field o "x") (field o "y")) as [Nx Ny].
  exists t, hf, (infer h (field o "x") (field o "y")).1,
    (infer h (field o "x") (field o "y")).2.
  split; [exact E|]. split; [congruence|].
  rewrite xy_props_union_insert in Rl, Rt.
  split; [exact Rl|].
  split; [unfold own_prop; rewrite Rt; simpl; rewrite lookup_insert_eq; reflexivity|].
  split.
  { unfold own_prop. rewrite Rt. simpl.
    rewrite lookup_insert_ne by discriminate. rewrite lookup_insert_eq. reflexivity. }
  split; [exact Nx|]. split; [exact Ny|]. split; [|exact Rk].
  intros Ix Iy. rewrite (infer_both h _ _ Ix Iy). split; reflexivity.
Qed.

Lemma C10_witness :
  exists t hf vx vy,
    Hex fp0 2 VUndefined (VRef literal_neg_zero_x.1) VUndefined VUndefined
        literal_neg_zero_x.2 = Ok (t, hf) /\
    t <> literal_neg_zero_x.1 /\
    hf !! literal_neg_zero_x.1 =
      Some (Obj CObject (proto neg_zero_x_object)
              (<["x" := vx]> (<["y" := vy]> (props neg_zero_x_object)))) /\
    own_prop hf (VRef t) "x" = vx /\ own_prop hf (VRef t) "y" = vy /\
    vx <> VNum (-0) /\ vy <> VNum (-0) /\
    (isNumber literal_neg_zero_x.2 (field neg_zero_x_object "x") = true ->
     isNumber literal_neg_zero_x.2 (field neg_zero_x_object "y") = true ->
     vx = unsignNegativeZero (field neg_zero_x_object "x") /\
     vy = unsignNegativeZero (field neg_zero_x_object "y")) /\
    (forall k ok, literal_neg_zero_x.2 !! k = Some ok -> k <> literal_neg_zero_x.1 ->
                  hf !! k = Some ok).
Proof.
  apply (C10_object_argument_is_mutated fp0 0 literal_neg_zero_x.2 literal_neg_zero_x.1
           neg_zero_x_object VUndefined VUndefined VUndefined).
  - vm_compute. reflexivity.
  - reflexivity.
  - right. reflexivity.
  - right. reflexivity.
  - vm_compute. exact I.
  - vm_compute. exact I.
  - vm_compute. reflexivity.
  - vm_compute. reflexivity.
Defined.

(** ** Binary64 arithmetic

    What the arithmetic of the methods needs of IEEE 754 binary64, from the
    specification of the primitive operations in [FloatAxioms]. *)

Section Binary64.

Local Open Scope Z_scope.

(** *** Exact rounding *)










(** *** Exact sums *)













(** *** Multiplying by one and by zero *)



End Binary64.

(** *** Sums of finite numbers *)






(** ** Calls made by the methods *)








(** ** C8: addition and subtraction *)




(** ** C9: interpolation *)



(** * Further properties of the constructor and the factory

    What the code of index.js shows beyond the statements above: the shape of
    every result, what a call may write, when it raises, the paths of the
    constructor one by one, and [createFactory]. *)

(** ** Stores and reads *)

Lemma same_but_xy_refl o : same_but_xy o o.
Proof. repeat split. Qed.

Lemma own_props_frame (h h2 : heap) v :
  (forall k (ok : object), h !! k = Some ok -> h2 !! k = Some ok) ->
  valid h v -> own_props h2 v = own_props h v.
Proof.
  intros Hfr Hv. destruct v as [| | b | n | s | l]; simpl in *; try reflexivity.
  destruct Hv as [ok Hk]. rewrite (Hfr _ _ Hk), Hk. reflexivity.
Qed.

(** The default [{}] is a new object: it has no properties and is no object
    of the store. *)
Lemma default_param_alias v h v' h' :
  default_param v h = (v', h') ->
  own_props h' v' = own_props h v /\
  (forall k (ok : object), h !! k = Some ok -> VRef k <> v -> VRef k <> v').
Proof.
  unfold default_param. intros Ed.
  destruct v as [| | b | m | s | c];
    [|injection Ed as <- <-; split; auto ..].
  destruct (alloc h empty_object) as [l h1] eqn:Ea. injection Ed as <- <-.
  apply alloc_spec in Ea as [Hl ->]. split.
  - simpl. rewrite lookup_insert_eq. reflexivity.
  - intros k ok Hk _ E'. congruence.
Qed.

Lemma Ok_inj {A : Type} (a b : A) : Ok a = Ok b -> a = b.
Proof. intros E. congruence. Qed.

Lemma object_eta (o : object) c p m :
  cls o = c -> proto o = p -> props o = m -> o = Obj c p m.
Proof. destruct o. simpl. intros -> -> ->. reflexivity. Qed.

Lemma value_ref_dec (v : value) (c : loc) : v = VRef c \/ v <> VRef c.
Proof.
  destruct v as [| | b | m | s | r]; try (right; discriminate).
  destruct (decide (r = c)) as [->|Hne]; [left; reflexivity|right; congruence].
Qed.

Lemma Get_own h t o k v :
  h !! t = Some o -> props o !! k = Some v -> Get h (VRef t) k = v.
Proof. intros Ht Hk. unfold Get. cbn [lookup_chain]. rewrite Ht, Hk. reflexivity. Qed.

Lemma Get_inherited h t o fp ofp k v :
  h !! t = Some o -> props o !! k = None -> proto o = Some fp ->
  h !! fp = Some ofp -> props ofp !! k = Some v ->
  Get h (VRef t) k = v.
Proof.
  intros Ht Hk Hp Hfp Hv. unfold Get.
  assert (Hs : size h <> 0) by (apply (map_size_ne_0_lookup_2 h t); eauto).
  destruct (size h) as [|n] eqn:En; [congruence|].
  cbn [lookup_chain]. rewrite Ht, Hk, Hp, Hfp, Hv. reflexivity.
Qed.

(** ** Every call *)

(** The return statement writes to one object of the store at most, the
    custom properties, and only to its [x] and [y]. *)
Lemma build_writes fp this cp x y h t hf :
  build fp this cp x y h = Ok (t, hf) ->
  forall k ok, h !! k = Some ok ->
    exists ok', hf !! k = Some ok' /\ same_but_xy ok ok' /\ (VRef k <> cp -> ok' = ok).
Proof.
  unfold build. intros E k ok Hk.
  destruct (alloc h (Obj CObject (Some fp) ∅)) as [t' h1] eqn:Ea.
  pose proof (alloc_lookup_old _ _ _ _ _ _ Ea Hk) as Hk1.
  apply alloc_spec in Ea as [Ht' _].
  assert (Hne : t' <> k) by congruence.
  destruct (ToObject cp h1) as [[c h2]| |] eqn:ET; try discriminate E.
  injection E as <- <-.
  unfold assign_from. rewrite !set_props_lookup_ne by exact Hne.
  assert (Hprim : forall w, alloc h1 w = (c, h2) ->
            exists ok', set_props h2 c (xy_props x y) !! k = Some ok' /\
                        same_but_xy ok ok' /\ (VRef k <> cp -> ok' = ok)).
  { intros w Ew.
    pose proof (alloc_lookup_old _ _ _ _ _ _ Ew Hk1) as Hk2.
    apply alloc_spec in Ew as [Hc _].
    rewrite set_props_lookup_ne by congruence.
    exists ok. split; [exact Hk2|]. split; [apply same_but_xy_refl|reflexivity]. }
  destruct cp as [| | b | m | s | l]; cbv beta iota delta [ToObject] in ET;
    try discriminate ET;
    try (apply (Hprim _ (Ok_inj _ _ ET))).
  injection ET as E1 E2. subst c h2.
  destruct (decide (l = k)) as [->|Hlk].
  - rewrite (set_props_lookup _ _ _ _ Hk1). eexists. split; [reflexivity|].
    split; [|congruence].
    split; [reflexivity|]. split; [reflexivity|]. simpl.
    intros key Hx Hy. apply lookup_union_r, xy_props_other; assumption.
  - rewrite set_props_lookup_ne by exact Hlk.
    exists ok. split; [exact Hk1|]. split; [apply same_but_xy_refl|reflexivity].
Qed.

(** X1. In a store none of whose objects has an own key named [__proto__],
    whatever the arguments and the receiver, a call that returns gives back
    an object that was not in the store before the call: a plain object
    whose prototype is [finalPrototype] and whose own [x] and [y] are
    numbers, neither of them [-0] (given the normalisation of
    [unsignNegativeZero]). *)
Theorem X1_Hex_returns_new_hex fp n this x y cp h t hf :
  valid h cp -> no_proto_keys h = true -> Hex fp n this x y cp h = Ok (t, hf) ->
  h !! t = None /\
  (exists o, hf !! t = Some o /\ cls o = CObject /\ proto o = Some fp) /\
  isNumber hf (own_prop hf (VRef t) "x") = true /\
  isNumber hf (own_prop hf (VRef t) "y") = true /\
  own_prop hf (VRef t) "x" <> VNum (-0) /\
  own_prop hf (VRef t) "y" <> VNum (-0).
Proof.
  intros Hcp _ E.
  destruct (Hex_result fp n this x y cp h t hf Hcp E)
    as (Ht & o & vx & vy & Hft & Hcls & Hpr & Hx & Nx & Ix & Hy & Ny & Iy).
  split; [exact Ht|]. split; [exists o; auto|].
  unfold own_prop. rewrite Hft, Hx, Hy. simpl. auto.
Qed.

(** The call that builds the red hex, [Hex(4, -2, { color: "red" })]. *)
Lemma X1_witness :
  red_literal.2 !! red_hex.1 = None /\
  (exists o, red_hex.2 !! red_hex.1 = Some o /\ cls o = CObject /\ proto o = Some fp0) /\
  isNumber red_hex.2 (own_prop red_hex.2 (VRef red_hex.1) "x") = true /\
  isNumber red_hex.2 (own_prop red_hex.2 (VRef red_hex.1) "y") = true /\
  own_prop red_hex.2 (VRef red_hex.1) "x" <> VNum (-0) /\
  own_prop red_hex.2 (VRef red_hex.1) "y" <> VNum (-0).
Proof.
  apply (X1_Hex_returns_new_hex fp0 1 VUndefined (VNum 4) (VNum (-2)) (VRef red_literal.1)
           red_literal.2 red_hex.1 red_hex.2).
  - vm_compute. eauto.
  - vm_compute. reflexivity.
  - vm_compute. reflexivity.
Defined.

(** X2. A call that returns never removes an object [k] of the store and
    never changes its class or its prototype; of its own properties only [x]
    and [y] can differ afterwards. An object that is neither the third
    argument nor a plain object is left exactly as it is. *)
Theorem X2_Hex_writes_only_x_and_y fp n this x y cp h t hf k ok :
  Hex fp n this x y cp h = Ok (t, hf) ->
  h !! k = Some ok ->
  exists ok', hf !! k = Some ok' /\ same_but_xy ok ok' /\
    (VRef k <> cp -> cls ok <> CObject -> ok' = ok).
Proof.
  revert this x y cp h. induction n as [|n IH]; intros this x y cp h E Hk.
  - discriminate E.
  - rewrite Hex_S in E.
    destruct (default_param cp h) as [cp' h'] eqn:Ed.
    pose proof (default_param_spec _ _ _ _ Ed) as (_ & _ & _ & Hfr & _).
    pose proof (default_param_alias _ _ _ _ Ed) as [_ Hal].
    pose proof (Hfr _ _ Hk) as Hk'.
    destruct (isObject h' x) eqn:Ho.
    { destruct (IH _ _ _ _ _ E Hk') as (ok' & R & S & U).
      exists ok'. split; [exact R|]. split; [exact S|].
      intros _ Hc. apply U; [|exact Hc].
      intros <-. unfold isObject in Ho. simpl in Ho. rewrite Hk' in Ho. simpl in Ho.
      destruct (cls ok); congruence. }
    destruct (isArray h' x).
    + destruct (alloc h' empty_object) as [l h''] eqn:Ea.
      pose proof (alloc_lookup_old _ _ _ _ _ _ Ea Hk') as Hk''.
      apply alloc_spec in Ea as [Hl _].
      destruct (infer h'' (own_prop h'' x "0") (own_prop h'' x "1")) as [x' y'].
      destruct (build_writes _ _ _ _ _ _ _ _ E k ok Hk'') as (ok' & R & S & U).
      exists ok'. split; [exact R|]. split; [exact S|].
      intros _ _. apply U. congruence.
    + destruct (infer h' x y) as [x' y'].
      destruct (build_writes _ _ _ _ _ _ _ _ E k ok Hk') as (ok' & R & S & U).
      exists ok'. split; [exact R|]. split; [exact S|].
      intros Hne _. apply U. exact (Hal _ _ Hk Hne).
Qed.

(** The literal [{ color: "red" }] across the call that builds the red hex. *)
Lemma X2_witness :
  exists ok', red_hex.2 !! red_literal.1 = Some ok' /\ same_but_xy red_object ok' /\
    (VRef red_literal.1 <> VRef red_literal.1 -> cls red_object <> CObject ->
     ok' = red_object).
Proof.
  apply (X2_Hex_writes_only_x_and_y fp0 1 VUndefined (VNum 4) (VNum (-2))
           (VRef red_literal.1) red_literal.2 red_hex.1 red_hex.2 red_literal.1 red_object).
  - vm_compute. reflexivity.
  - vm_compute. reflexivity.
Defined.

(** X3. On positional arguments, the first being neither a plain object nor
    an array, a [null] third argument makes the constructor raise a
    [TypeError], whatever the receiver and the other arguments: the default
    [{}] stands in for [undefined] only, and [Object.assign(null, { x, y })]
    raises. *)
Theorem X3_Hex_null_custom_props_throws fp n this x y h :
  isObject h x = false -> isArray h x = false ->
  Hex fp (S n) this x y VNull h = Throw TypeError.
Proof.
  intros Ho Ha. rewrite Hex_S. simpl. rewrite Ho, Ha.
  destruct (infer h x y). apply build_null.
Qed.

(** [Hex(1, 2, null)] in the default factory. *)
Lemma X3_witness :
  Hex fp0 1 VUndefined (VNum 1) (VNum 2) VNull store0 = Throw TypeError.
Proof.
  apply (X3_Hex_null_custom_props_throws fp0 0 VUndefined (VNum 1) (VNum 2) store0).
  - reflexivity.
  - reflexivity.
Defined.

(** ** Positional arguments *)

(** X4. A plain call on positional arguments with no custom properties
    returns a new object with exactly the two own properties [x] and [y], and
    so no [z], and changes no object of the store: both arguments after
    [unsignNegativeZero] when both are numbers, the one number twice when
    only one is, and [0], [0] when neither is. A string of digits is not a
    number. *)
Theorem X4_Hex_positional_inference fp fuel h x y :
  valid h x -> valid h y -> isObject h x = false -> isArray h x = false ->
  exists t hf xs ys,
    Hex fp (S fuel) VUndefined x y VUndefined h = Ok (t, hf) /\
    h !! t = None /\
    hf !! t = Some (Obj CObject (Some fp) (xy_props xs ys)) /\
    (forall k ok, h !! k = Some ok -> hf !! k = Some ok) /\
    (isNumber h x = true -> isNumber h y = true ->
       xs = unsignNegativeZero x /\ ys = unsignNegativeZero y) /\
    (isNumber h x = true -> isNumber h y = false ->
       xs = unsignNegativeZero x /\ ys = unsignNegativeZero x) /\
    (isNumber h x = false -> isNumber h y = true ->
       xs = unsignNegativeZero y /\ ys = unsignNegativeZero y) /\
    (isNumber h x = false -> isNumber h y = false -> xs = VNum 0 /\ ys = VNum 0).
Proof.
  intros Hx Hy Ho Ha.
  destruct (Hex_scalar_ok fp fuel VUndefined x y VUndefined h Hx Hy I Ho Ha)
    as (t & hf & o & E & Hnew & Ht & Hcls & Hpr & _ & _ & Hp & Hfr); [discriminate|].
  specialize (Hp eq_refl). simpl in Hp. rewrite (right_id_L ∅ (∪)) in Hp.
  exists t, hf, (infer h x y).1, (infer h x y).2.
  split; [exact E|]. split; [exact Hnew|]. split.
  { rewrite Ht. f_equal. apply object_eta; assumption. }
  split.
  { intros k ok Hk. apply (Hfr k ok Hk). discriminate. }
  split; [|split; [|split]]; intros Ix Iy.
  - rewrite (infer_both h x y Ix Iy). split; reflexivity.
  - rewrite (infer_only_x h x y Ix Iy). split; reflexivity.
  - rewrite (infer_only_y h x y Ix Iy). split; reflexivity.
  - rewrite (infer_neither h x y Ix Iy). split; reflexivity.
Qed.

(** [Hex(1)] in the default factory. *)
Lemma X4_witness :
  exists t hf xs ys,
    Hex fp0 1 VUndefined (VNum 1) VUndefined VUndefined store0 = Ok (t, hf) /\
    store0 !! t = None /\
    hf !! t = Some (Obj CObject (Some fp0) (xy_props xs ys)) /\
    (forall k ok, store0 !! k = Some ok -> hf !! k = Some ok) /\
    (isNumber store0 (VNum 1) = true -> isNumber store0 VUndefined = true ->
       xs = unsignNegativeZero (VNum 1) /\ ys = unsignNegativeZero VUndefined) /\
    (isNumber store0 (VNum 1) = true -> isNumber store0 VUndefined = false ->
       xs = unsignNegativeZero (VNum 1) /\ ys = unsignNegativeZero (VNum 1)) /\
    (isNumber store0 (VNum 1) = false -> isNumber store0 VUndefined = true ->
       xs = unsignNegativeZero VUndefined /\ ys = unsignNegativeZero VUndefined) /\
    (isNumber store0 (VNum 1) = false -> isNumber store0 VUndefined = false ->
       xs = VNum 0 /\ ys = VNum 0).
Proof.
  apply (X4_Hex_positional_inference fp0 0 store0 (VNum 1) VUndefined).
  - exact I.
  - exact I.
  - reflexivity.
  - reflexivity.
Defined.

Lemma merged_union (xy custom bound : gmap string value) k :
  ((xy ∪ custom) ∪ bound) !! k = merged xy custom bound k.
Proof.
  unfold merged. rewrite !lookup_union.
  destruct (xy !! k), (custom !! k), (bound !! k); reflexivity.
Qed.

(** The merge of the return statement, for custom properties that are not
    [null] (nor [undefined], which the default parameter has replaced). *)
Lemma build_merge fp this cp x y h :
  cp <> VUndefined -> cp <> VNull -> valid h cp -> valid h this ->
  exists t hf o,
    build fp this cp x y h = Ok (t, hf) /\ hf !! t = Some o /\
    forall k, props o !! k = merged (xy_props x y) (own_props h cp) (own_props h this) k.
Proof.
  intros Hu Hn Hcp Hthis.
  assert (Hprim : forall w,
    (forall h1, ToObject cp h1 = Ok (alloc h1 w)) ->
    props w = own_props h cp ->
    exists t hf o,
      build fp this cp x y h = Ok (t, hf) /\ hf !! t = Some o /\
      forall k, props o !! k =
                merged (xy_props x y) (own_props h cp) (own_props h this) k).
  { intros w HT Hw. unfold build.
    destruct (alloc h (Obj CObject (Some fp) ∅)) as [t h1] eqn:Ea.
    rewrite HT. destruct (alloc h1 w) as [c h1'] eqn:Ec.
    pose proof (alloc_lookup_old _ _ _ _ t (Obj CObject (Some fp) ∅) Ec) as H1t.
    pose proof (alloc_spec _ _ _ _ Ea) as [Ht E1].
    assert (Ht1 : h1 !! t = Some (Obj CObject (Some fp) ∅)).
    { rewrite E1. apply lookup_insert_eq. }
    specialize (H1t Ht1).
    pose proof (alloc_spec _ _ _ _ Ec) as [Hc E1'].
    assert (Hne : c <> t) by congruence.
    assert (H1c : h1' !! c = Some w).
    { rewrite E1'. apply lookup_insert_eq. }
    destruct (assign_chain t c w (Some fp) x y this h1' Hne H1t H1c) as (_ & Rt & _).
    eexists t, _, _. split; [reflexivity|]. split; [exact Rt|].
    intros k. cbn [props]. rewrite merged_union, Hw. f_equal.
    destruct this as [| | b | n | s | r]; try reflexivity.
    destruct Hthis as [orr Hr]. simpl.
    assert (r <> t) by congruence.
    assert (Hr1 : h1 !! r = Some orr).
    { rewrite E1, lookup_insert_ne by congruence. exact Hr. }
    assert (r <> c) by congruence.
    rewrite set_props_lookup_ne by congruence.
    rewrite E1', lookup_insert_ne by congruence. rewrite Hr1, Hr. reflexivity. }
  destruct cp as [| | b | n | s | c]; try congruence.
  - apply (Hprim (Obj COther None ∅)); reflexivity.
  - apply (Hprim (Obj CNumber None ∅)); reflexivity.
  - apply (Hprim (Obj COther None (string_props s))); reflexivity.
  - destruct Hcp as [oc Hc].
    destruct (build_ref fp this c oc x y h Hc) as (t & hf & E & Ht & _ & Rt & _).
    eexists t, hf, _. split; [exact E|]. split; [exact Rt|].
    intros k. cbn [props]. rewrite merged_union.
    assert (Eoc : own_props h (VRef c) = props oc) by (simpl; rewrite Hc; reflexivity).
    assert (Hne : c <> t) by congruence.
    destruct (value_ref_dec this c) as [->|Nc].
    + rewrite Eoc.
      assert (Es : own_props
                (set_props (<[t:=Obj CObject (Some fp) ∅]> h) c (xy_props x y)) (VRef c)
              = xy_props x y ∪ props oc).
      { simpl. unfold set_props. rewrite lookup_insert_ne by congruence.
        rewrite Hc, lookup_insert_eq. reflexivity. }
      rewrite Es. unfold merged. rewrite !lookup_union.
      destruct (xy_props x y !! k), (props oc !! k); reflexivity.
    + rewrite Eoc. f_equal.
      destruct this as [| | b | n | s | r]; try reflexivity.
      destruct Hthis as [orr Hr].
      assert (r <> c) by congruence. assert (r <> t) by congruence.
      simpl. rewrite set_props_lookup_ne by congruence.
      rewrite lookup_insert_ne by congruence. rewrite Hr. reflexivity.
Qed.

(** X5. The layers of the merge of lines 167-173 on a positional call, for
    any custom properties but [null], neither they nor the receiver having
    an own key named [__proto__]: a key of the result is [x] or [y] as
    computed, else the own property of the custom properties, else the own
    property of the receiver. Coordinates present in the custom properties
    are thus ignored, custom properties hide the bound ones, and with no
    custom properties the bound ones are kept, as the methods that return a
    hex need. *)
Theorem X5_Hex_merge_precedence fp fuel h this x y cp :
  valid h x -> valid h y -> valid h this -> valid h cp ->
  isObject h x = false -> isArray h x = false -> cp <> VNull ->
  no_proto_key (own_props h cp) = true -> no_proto_key (own_props h this) = true ->
  exists t hf o,
    Hex fp (S fuel) this x y cp h = Ok (t, hf) /\
    hf !! t = Some o /\
    forall k,
      props o !! k =
      merged (xy_props (infer h x y).1 (infer h x y).2)
             (own_props h cp) (own_props h this) k.
Proof.
  intros Hx Hy Hthis Hcp Ho Ha Hn _ _.
  rewrite (Hex_scalar fp fuel this x y cp h Hx Ho Ha).
  destruct (default_param cp h) as [cp' h'] eqn:Ed.
  pose proof (default_param_spec _ _ _ _ Ed) as (Hu & Hnull & Hval & Hfr & Hc).
  pose proof (default_param_alias _ _ _ _ Ed) as [Eown _].
  rewrite (infer_heap h h' x y Hc Hx Hy).
  destruct (infer h x y) as [x' y'] eqn:Ei. simpl.
  assert (Hn' : cp' <> VNull) by (intros E; apply Hn, Hnull, E).
  assert (Hthis' : valid h' this).
  { destruct this; simpl in *; auto. destruct Hthis as [ok Hk]. eauto. }
  destruct (build_merge fp this cp' x' y' h' Hu Hn' (Hval Hcp) Hthis')
    as (t & hf & o & E & Ht & Hk).
  exists t, hf, o. split; [exact E|]. split; [exact Ht|].
  intros k. rewrite Hk, Eown, (own_props_frame h h' this Hfr Hthis). reflexivity.
Qed.

(** [Hex.call(red, 1, 2)], [red] being the red hex: [color] is kept. *)
Lemma X5_witness :
  exists t hf o,
    Hex fp0 1 (VRef red_hex.1) (VNum 1) (VNum 2) VUndefined red_hex.2 = Ok (t, hf) /\
    hf !! t = Some o /\
    forall k,
      props o !! k =
      merged (xy_props (infer red_hex.2 (VNum 1) (VNum 2)).1
                       (infer red_hex.2 (VNum 1) (VNum 2)).2)
             (own_props red_hex.2 VUndefined) (own_props red_hex.2 (VRef red_hex.1)) k.
Proof.
  apply (X5_Hex_merge_precedence fp0 0 red_hex.2 (VRef red_hex.1) (VNum 1) (VNum 2)
           VUndefined).
  - exact I.
  - exact I.
  - vm_compute. eauto.
  - exact I.
  - reflexivity.
  - reflexivity.
  - discriminate.
  - reflexivity.
  - vm_compute. reflexivity.
Defined.

(** A positional call with an object of the store as custom properties. [P]
    is what the receiver contributes. *)
Lemma Hex_positional_ref fp fuel h this x y c oc :
  valid h x -> valid h y -> valid h this ->
  isObject h x = false -> isArray h x = false ->
  h !! c = Some oc ->
  exists t hf P,
    Hex fp (S fuel) this x y (VRef c) h = Ok (t, hf) /\
    h !! t = None /\
    hf !! c = Some (Obj (cls oc) (proto oc)
                     (xy_props (infer h x y).1 (infer h x y).2 ∪ props oc)) /\
    hf !! t = Some (Obj CObject (Some fp)
                     ((xy_props (infer h x y).1 (infer h x y).2 ∪ props oc) ∪ P)) /\
    (this <> VRef c -> P = own_props h this) /\
    (this = VRef c -> P = xy_props (infer h x y).1 (infer h x y).2 ∪ props oc) /\
    (forall k, k <> c -> k <> t -> hf !! k = h !! k).
Proof.
  intros Hx Hy Hthis Ho Ha Hc.
  rewrite (Hex_scalar fp fuel this x y (VRef c) h Hx Ho Ha). simpl.
  destruct (infer h x y) as [x' y'] eqn:Ei. simpl.
  destruct (build_ref fp this c oc x' y' h Hc) as (t & hf & E & Ht & Rc & Rt & Rk).
  exists t, hf. eexists. split; [exact E|]. split; [exact Ht|]. split; [exact Rc|].
  split; [exact Rt|]. split; [|split; [|exact Rk]].
  - intros Hnc. destruct this as [| | b | m | s | r]; simpl; try reflexivity.
    destruct Hthis as [orr Hr].
    assert (r <> c) by congruence. assert (r <> t) by congruence.
    rewrite set_props_lookup_ne by congruence.
    rewrite lookup_insert_ne by congruence. rewrite Hr. reflexivity.
  - intros ->. simpl. assert (Hne : c <> t) by congruence.
    unfold set_props. rewrite lookup_insert_ne by congruence.
    rewrite Hc. rewrite lookup_insert_eq. reflexivity.
Qed.

(** X6. The object passed as custom properties is written in place (line
    172): after the call it has [x] and [y] set to the coordinates of the
    returned hex and its other properties unchanged; the returned hex is
    another object, and every other object of the store is as before. *)
Theorem X6_Hex_custom_props_written fp fuel h this x y c oc :
  valid h x -> valid h y -> valid h this ->
  isObject h x = false -> isArray h x = false ->
  h !! c = Some oc ->
  exists t hf vx vy,
    Hex fp (S fuel) this x y (VRef c) h = Ok (t, hf) /\
    t <> c /\
    own_prop hf (VRef t) "x" = vx /\ own_prop hf (VRef t) "y" = vy /\
    hf !! c = Some (Obj (cls oc) (proto oc) (<["x" := vx]> (<["y" := vy]> (props oc)))) /\
    (forall k ok, h !! k = Some ok -> k <> c -> hf !! k = Some ok).
Proof.
  intros Hx Hy Hthis Ho Ha Hc.
  destruct (Hex_positional_ref fp fuel h this x y c oc Hx Hy Hthis Ho Ha Hc)
    as (t & hf & P & E & Ht & Rc & Rt & _ & _ & Rk).
  exists t, hf, (infer h x y).1, (infer h x y).2.
  split; [exact E|]. split; [congruence|].
  unfold own_prop. rewrite Rt. simpl.
  split; [rewrite (lookup_union_Some_l _ _ _ (infer h x y).1); [reflexivity|]|].
  { apply lookup_union_Some_l, xy_props_x. }
  split; [rewrite (lookup_union_Some_l _ _ _ (infer h x y).2); [reflexivity|]|].
  { apply lookup_union_Some_l, xy_props_y. }
  split; [rewrite <- xy_props_union_insert; exact Rc|].
  intros k ok Hk Hkc. rewrite Rk; [exact Hk|exact Hkc|congruence].
Qed.

(** The literal [{ color: "red" }] passed to [Hex(4, -2, ...)]. *)
Lemma X6_witness :
  exists t hf vx vy,
    Hex fp0 1 VUndefined (VNum 4) (VNum (-2)) (VRef red_literal.1) red_literal.2
      = Ok (t, hf) /\
    t <> red_literal.1 /\
    own_prop hf (VRef t) "x" = vx /\ own_prop hf (VRef t) "y" = vy /\
    hf !! red_literal.1 =
      Some (Obj (cls red_object) (proto red_object)
              (<["x" := vx]> (<["y" := vy]> (props red_object)))) /\
    (forall k ok, red_literal.2 !! k = Some ok -> k <> red_literal.1 -> hf !! k = Some ok).
Proof.
  apply (X6_Hex_custom_props_written fp0 0 red_literal.2 VUndefined (VNum 4) (VNum (-2))
           red_literal.1 red_object).
  - exact I.
  - exact I.
  - exact I.
  - reflexivity.
  - reflexivity.
  - vm_compute. reflexivity.
Defined.

(** X7. A property of the returned hex is read from the hex itself when it is
    an own property, and otherwise from [finalPrototype] when that has it
    ([Object.create(finalPrototype)], line 169). The custom properties must
    not be [finalPrototype] itself, which line 172 would write to, and
    neither they nor the receiver may have an own key named [__proto__],
    which would give the hex another prototype. *)
Theorem X7_Hex_inherits_from_prototype fp fuel h this x y cp ofp :
  h !! fp = Some ofp ->
  valid h x -> valid h y -> valid h cp ->
  isObject h x = false -> isArray h x = false ->
  cp <> VNull -> cp <> VRef fp ->
  no_proto_key (own_props h cp) = true -> no_proto_key (own_props h this) = true ->
  exists t hf o,
    Hex fp (S fuel) this x y cp h = Ok (t, hf) /\
    hf !! t = Some o /\
    forall k v,
      (props o !! k = Some v -> Get hf (VRef t) k = v) /\
      (props o !! k = None -> props ofp !! k = Some v -> Get hf (VRef t) k = v).
Proof.
  intros Hfp Hx Hy Hcp Ho Ha Hn Hne _ _.
  destruct (Hex_scalar_ok fp fuel this x y cp h Hx Hy Hcp Ho Ha Hn)
    as (t & hf & o & E & _ & Ht & _ & Hpr & _ & _ & _ & Hfr).
  assert (Hffp : hf !! fp = Some ofp) by (apply Hfr; [exact Hfp|congruence]).
  exists t, hf, o. split; [exact E|]. split; [exact Ht|].
  intros k v. split.
  - intros Hk. exact (Get_own hf t o k v Ht Hk).
  - intros Hk Hv. exact (Get_inherited hf t o fp ofp k v Ht Hk Hpr Hffp Hv).
Qed.

(** [Hex(1, 2)] in the default factory. *)
Lemma X7_witness :
  exists t hf o,
    Hex fp0 1 VUndefined (VNum 1) (VNum 2) VUndefined store0 = Ok (t, hf) /\
    hf !! t = Some o /\
    forall k v,
      (props o !! k = Some v -> Get hf (VRef t) k = v) /\
      (props o !! k = None -> props final_prototype_object !! k = Some v ->
       Get hf (VRef t) k = v).
Proof.
  apply (X7_Hex_inherits_from_prototype fp0 0 store0 VUndefined (VNum 1) (VNum 2) VUndefined
           final_prototype_object).
  - vm_compute. reflexivity.
  - exact I.
  - exact I.
  - exact I.
  - reflexivity.
  - reflexivity.
  - discriminate.
  - discriminate.
  - reflexivity.
  - reflexivity.
Defined.

(** ** Arrays and objects *)

(** X8. For an array argument the second and third arguments are ignored, a
    [null] third argument included (no [TypeError]): the result has [x] and
    [y] inferred from the elements [0] and [1], [undefined] standing for an
    element past the length and further elements being ignored, merged over
    the own properties of the receiver, which has no own key named
    [__proto__]; and no object of the store, the array included, is
    changed. *)
Theorem X8_Hex_array fp fuel h l o this y cp :
  h !! l = Some o -> cls o = CArray ->
  valid h (field o "0") -> valid h (field o "1") -> valid h this ->
  no_proto_key (own_props h this) = true ->
  exists t hf,
    Hex fp (S fuel) this (VRef l) y cp h = Ok (t, hf) /\
    h !! t = None /\
    hf !! t = Some (Obj CObject (Some fp)
                     (xy_props (infer h (field o "0") (field o "1")).1
                               (infer h (field o "0") (field o "1")).2
                      ∪ own_props h this)) /\
    (forall k ok, h !! k = Some ok -> hf !! k = Some ok).
Proof.
  intros Hl Hcls H0 H1 Hthis _. rewrite Hex_S.
  destruct (default_param cp h) as [cp' h'] eqn:Ed.
  pose proof (default_param_spec _ _ _ _ Ed) as (_ & _ & _ & Hfr & Hc).
  pose proof (Hfr _ _ Hl) as Hl'.
  assert (Hobj : isObject h' (VRef l) = false).
  { unfold isObject. simpl. rewrite Hl'. simpl. rewrite Hcls. reflexivity. }
  assert (Harr : isArray h' (VRef l) = true).
  { unfold isArray. simpl. rewrite Hl'. simpl. rewrite Hcls. reflexivity. }
  rewrite Hobj, Harr.
  destruct (alloc h' empty_object) as [c h''] eqn:Ea.
  pose proof (alloc_lookup_old _ _ _ _ _ _ Ea Hl') as Hl''.
  assert (Hfr2 : forall k (ok : object), h !! k = Some ok -> h'' !! k = Some ok).
  { intros k ok Hk. exact (alloc_lookup_old _ _ _ _ _ _ Ea (Hfr _ _ Hk)). }
  assert (Hc2 : forall w, valid h w -> class_of h'' w = class_of h w).
  { intros w Hw. destruct w as [| | b | n | s | r]; simpl in *; try reflexivity.
    destruct Hw as [ok Hk]. rewrite (Hfr2 _ _ Hk), Hk. reflexivity. }
  assert (E0 : own_prop h'' (VRef l) "0" = field o "0").
  { unfold own_prop, field. rewrite Hl''. reflexivity. }
  assert (E1 : own_prop h'' (VRef l) "1" = field o "1").
  { unfold own_prop, field. rewrite Hl''. reflexivity. }
  rewrite E0, E1, (infer_heap h h'' _ _ Hc2 H0 H1).
  destruct (infer h (field o "0") (field o "1")) as [x' y'] eqn:Ei. simpl.
  assert (Hcc : h'' !! c = Some empty_object).
  { apply alloc_spec in Ea as [_ ->]. apply lookup_insert_eq. }
  destruct (build_ref fp this c empty_object x' y' h'' Hcc)
    as (t & hf & E & Ht & Rc & Rt & Rk).
  exists t, hf. split; [exact E|].
  assert (Ht0 : h !! t = None).
  { destruct (h !! t) as [ok|] eqn:Hk; [|reflexivity].
    rewrite (Hfr2 _ _ Hk) in Ht. discriminate. }
  split; [exact Ht0|]. split.
  - rewrite Rt.
    assert (EA : xy_props x' y' ∪ props empty_object = xy_props x' y').
    { simpl. apply (right_id_L ∅ (∪)). }
    rewrite EA. f_equal. f_equal. f_equal.
    rewrite <- (own_props_frame h h'' this Hfr2 Hthis).
    destruct this as [| | b | n | s | r]; simpl; try reflexivity.
    destruct Hthis as [orr Hr]. pose proof (Hfr2 _ _ Hr) as Hr''.
    assert (r <> c).
    { apply alloc_spec in Ea as [Hn _]. intros ->. rewrite (Hfr _ _ Hr) in Hn.
      discriminate. }
    assert (r <> t) by congruence.
    rewrite set_props_lookup_ne by congruence.
    rewrite lookup_insert_ne by congruence. reflexivity.
  - intros k ok Hk. pose proof (Hfr2 _ _ Hk) as Hk''.
    rewrite Rk; [exact Hk''| |congruence].
    apply alloc_spec in Ea as [Hn _]. intros ->. rewrite (Hfr _ _ Hk) in Hn.
    discriminate.
Qed.

(** [Hex([1, 2], undefined, null)] in the default factory. *)
Lemma X8_witness :
  exists t hf,
    Hex fp0 1 VUndefined (VRef array_1_2.1) VUndefined VNull array_1_2.2 = Ok (t, hf) /\
    array_1_2.2 !! t = None /\
    hf !! t = Some (Obj CObject (Some fp0)
                     (xy_props (infer array_1_2.2 (field array_1_2_object "0")
                                      (field array_1_2_object "1")).1
                               (infer array_1_2.2 (field array_1_2_object "0")
                                      (field array_1_2_object "1")).2
                      ∪ own_props array_1_2.2 VUndefined)) /\
    (forall k ok, array_1_2.2 !! k = Some ok -> hf !! k = Some ok).
Proof.
  apply (X8_Hex_array fp0 0 array_1_2.2 array_1_2.1 array_1_2_object VUndefined VUndefined VNull).
  - vm_compute. reflexivity.
  - reflexivity.
  - vm_compute. exact I.
  - vm_compute. exact I.
  - exact I.
  - reflexivity.
Defined.

Lemma frame_valid (h h' : heap) v :
  (forall k (ok : object), h !! k = Some ok -> h' !! k = Some ok) ->
  valid h v -> valid h' v.
Proof.
  intros Hfr. destruct v; simpl; auto. intros [ok Hk]. eauto.
Qed.

Lemma frame_class_of (h h' : heap) v :
  (forall k (ok : object), h !! k = Some ok -> h' !! k = Some ok) ->
  valid h v -> class_of h' v = class_of h v.
Proof.
  intros Hfr. destruct v; simpl; auto. intros [ok Hk].
  rewrite (Hfr _ _ Hk), Hk. reflexivity.
Qed.

Lemma x_chain_frame (h h' : heap) d l l' o' :
  (forall k (ok : object), h !! k = Some ok -> h' !! k = Some ok) ->
  x_chain h d l l' o' -> x_chain h' d l l' o'.
Proof.
  intros Hfr C. induction C as [l o Hl Hc Rx Ry Vx Vy Ox Ax | d l o l2 l' o' Hl Hc Hx C IH].
  - apply x_chain_end; auto.
    + exact (frame_valid h h' _ Hfr Vx).
    + exact (frame_valid h h' _ Hfr Vy).
    + unfold isObject in *. rewrite (frame_class_of h h' _ Hfr Vx). exact Ox.
    + unfold isArray in *. rewrite (frame_class_of h h' _ Hfr Vx). exact Ax.
  - eapply x_chain_step; eauto.
Qed.

Lemma x_chain_last h d l l' o' :
  x_chain h d l l' o' ->
  h !! l' = Some o' /\ valid h (field o' "x") /\ valid h (field o' "y") /\
  isObject h (field o' "x") = false.
Proof. intros C. induction C; auto. Qed.

Lemma x_chain_head h d l l' o' :
  x_chain h d l l' o' -> isObject h (VRef l) = true.
Proof.
  intros C. unfold isObject.
  destruct C as [l o Hl Hc | d l o l2 l' o' Hl Hc]; simpl; rewrite Hl; simpl;
    rewrite Hc; reflexivity.
Qed.

(** X9. When the [x] of a plain object argument is itself a plain object the
    constructor recurses into it (line 145), and so on along the chain of
    [x] fields. When the chain ends after [d] steps in a plain object [l']
    whose [x] is neither a plain object nor an array, and which has no own
    key named [__proto__], the call returns: the
    result is built from [l'] alone, and every other object of the store, the
    argument included when [0 < d], is left unchanged; its other properties
    do not reach the result. *)
Theorem X9_Hex_follows_x_chain fp fuel d h l l' o' this y cp :
  x_chain h d l l' o' -> no_proto_key (props o') = true ->
  exists t hf,
    Hex fp (d + S (S fuel)) this (VRef l) y cp h = Ok (t, hf) /\
    h !! t = None /\
    hf !! t = Some (Obj CObject (Some fp)
                     (xy_props (infer h (field o' "x") (field o' "y")).1
                               (infer h (field o' "x") (field o' "y")).2 ∪ props o')) /\
    (0 < d -> l <> l') /\
    (forall k ok, h !! k = Some ok -> k <> l' -> hf !! k = Some ok).
Proof.
  intros C _. revert h l l' o' this y cp C.
  induction d as [|d IH]; intros h l l' o' this y cp C.
  - inversion C as [l0 o Hl Hc Rx Ry Vx Vy Ox Ax | ]; subst.
    destruct (Hex_object fp fuel this l' o' y cp h Hl Hc Rx Ry Vx Vy Ox Ax)
      as (t & hf & E & Ht & _ & Rt & Rk).
    exists t, hf. split; [exact E|]. split; [exact Ht|]. split; [exact Rt|].
    split; [lia|exact Rk].
  - inversion C as [| d0 l0 o l2 l0' o0' Hl Hc Hx C']; subst.
    change (S d + S (S fuel)) with (S (d + S (S fuel))). rewrite Hex_S.
    destruct (default_param cp h) as [cp' h'] eqn:Ed.
    pose proof (default_param_spec _ _ _ _ Ed) as (_ & _ & _ & Hfr & Hcl).
    pose proof (Hfr _ _ Hl) as Hl'.
    assert (Hobj : isObject h' (VRef l) = true).
    { unfold isObject. simpl. rewrite Hl'. simpl. rewrite Hc. reflexivity. }
    rewrite Hobj.
    rewrite (Get_reads_own h' l o "x" Hl') by (left; rewrite Hx; eauto).
    unfold field at 1. rewrite Hx. simpl.
    destruct (x_chain_last _ _ _ _ _ C') as (Hl'o & Vx & Vy & Ox).
    destruct (IH h' l2 l' o' VUndefined (Get h' (VRef l) "y") (VRef l)
                (x_chain_frame h h' _ _ _ _ Hfr C')) as (t & hf & E & Ht & Rt & _ & Rk).
    rewrite (infer_heap h h' _ _ Hcl Vx Vy) in Rt.
    exists t, hf. split; [exact E|]. split.
    { destruct (h !! t) as [ok|] eqn:Hk; [|reflexivity].
      rewrite (Hfr _ _ Hk) in Ht. discriminate. }
    split; [exact Rt|]. split.
    { intros _ <-. assert (o' = o) by congruence. subst o'.
      unfold field in Ox. rewrite Hx in Ox. simpl in Ox.
      rewrite (x_chain_head _ _ _ _ _ C') in Ox. discriminate Ox. }
    intros k ok Hk Hne. apply Rk; [exact (Hfr _ _ Hk)|exact Hne].
Qed.

(** [Hex({ x: { x: 1, y: 2 }, color: "red" })] in the default factory. *)
Lemma X9_witness :
  exists t hf,
    Hex fp0 (1 + 2) VUndefined (VRef outer_literal.1) VUndefined VUndefined
        outer_literal.2 = Ok (t, hf) /\
    outer_literal.2 !! t = None /\
    hf !! t = Some (Obj CObject (Some fp0)
                     (xy_props (infer outer_literal.2 (field inner_object "x")
                                      (field inner_object "y")).1
                               (infer outer_literal.2 (field inner_object "x")
                                      (field inner_object "y")).2
                      ∪ props inner_object)) /\
    (0 < 1 -> outer_literal.1 <> literal_1_2.1) /\
    (forall k ok, outer_literal.2 !! k = Some ok -> k <> literal_1_2.1 ->
                  hf !! k = Some ok).
Proof.
  apply (X9_Hex_follows_x_chain fp0 0 1 outer_literal.2 outer_literal.1 literal_1_2.1
           inner_object VUndefined VUndefined VUndefined).
  - apply (x_chain_step _ 0 outer_literal.1 outer_object literal_1_2.1).
    + vm_compute. reflexivity.
    + reflexivity.
    + vm_compute. reflexivity.
    + apply x_chain_end.
      * vm_compute. reflexivity.
      * reflexivity.
      * left. vm_compute. eauto.
      * left. vm_compute. eauto.
      * vm_compute. exact I.
      * vm_compute. exact I.
      * vm_compute. reflexivity.
      * vm_compute. reflexivity.
  - reflexivity.
Defined.

Lemma Hex_cycle_no_result (S : loc -> Prop) h0 :
  closed_under_x h0 S ->
  forall fp n this l y cp (h : heap),
    (forall k (ok : object), h0 !! k = Some ok -> h !! k = Some ok) ->
    S l -> Hex fp n this (VRef l) y cp h = OutOfFuel.
Proof.
  intros HS fp n. induction n as [|n IH]; intros this l y cp h Hsub Hl.
  - reflexivity.
  - rewrite Hex_S.
    destruct (default_param cp h) as [cp' h'] eqn:Ed.
    pose proof (default_param_spec _ _ _ _ Ed) as (_ & _ & _ & Hfr & _).
    destruct (HS l Hl) as (o & l' & Ho & Hcls & Hx & Hl').
    pose proof (Hfr _ _ (Hsub _ _ Ho)) as Ho'.
    assert (Hobj : isObject h' (VRef l) = true).
    { unfold isObject. simpl. rewrite Ho'. simpl. rewrite Hcls. reflexivity. }
    rewrite Hobj.
    rewrite (Get_reads_own h' l o "x" Ho') by (left; rewrite Hx; eauto).
    unfold field. rewrite Hx. simpl.
    apply IH; [|exact Hl'].
    intros k ok Hk. exact (Hfr _ _ (Hsub _ _ Hk)).
Qed.

(** X10. On plain objects whose [x] leads back to one of them (an object
    that is its own [x], or a longer cycle) the constructor calls itself
    without end: no amount of fuel gives a result. An engine ends such a call
    with a [RangeError] for the exhausted stack. *)
Theorem X10_Hex_cyclic_x_never_returns (S : loc -> Prop) fp n this l y cp h :
  closed_under_x h S -> S l ->
  Hex fp n this (VRef l) y cp h = OutOfFuel.
Proof.
  intros HS Hl. apply (Hex_cycle_no_result S h HS); [|exact Hl].
  intros k ok Hk. exact Hk.
Qed.

(** The object that is its own [x]. *)
Lemma X10_witness :
  Hex fp0 5 VUndefined (VRef self_x_loc) VUndefined VUndefined self_x_store = OutOfFuel.
Proof.
  apply (X10_Hex_cyclic_x_never_returns (fun l => l = self_x_loc)).
  - intros l ->. exists self_x_object, self_x_loc.
    split; [vm_compute; reflexivity|]. split; [reflexivity|].
    split; [vm_compute; reflexivity|reflexivity].
  - reflexivity.
Defined.

(** ** The inference *)

(** X11. The inference of lines 154-165 is symmetric in its two arguments,
    and idempotent: inferring again from inferred coordinates changes
    nothing. *)
Theorem X11_infer_symmetric_idempotent h x y :
  infer h y x = ((infer h x y).2, (infer h x y).1) /\
  infer h (infer h x y).1 (infer h x y).2 = infer h x y.
Proof.
  split.
  - destruct (isNumber h x) eqn:Ix, (isNumber h y) eqn:Iy.
    + rewrite (infer_both h x y Ix Iy), (infer_both h y x Iy Ix). reflexivity.
    + rewrite (infer_only_x h x y Ix Iy), (infer_only_y h y x Iy Ix). reflexivity.
    + rewrite (infer_only_y h x y Ix Iy), (infer_only_x h y x Iy Ix). reflexivity.
    + rewrite (infer_neither h x y Ix Iy), (infer_neither h y x Iy Ix). reflexivity.
  - destruct (infer_isNumber h x y) as [Ix Iy].
    destruct (infer_not_neg_zero h x y) as [Nx Ny].
    rewrite (infer_both h _ _ Ix Iy).
    rewrite (unsignNegativeZero_id _ Nx), (unsignNegativeZero_id _ Ny).
    destruct (infer h x y). reflexivity.
Qed.

(** ** The factory *)

(** The method entries: one function for each name, and nothing else. *)
Lemma alloc_methods_spec names h m h' :
  alloc_methods names h = (m, h') ->
  (forall k (ok : object), h !! k = Some ok -> h' !! k = Some ok) /\
  (forall n, n ∈ names ->
     exists f, m !! n = Some (VRef f) /\ h !! f = None /\
               h' !! f = Some (Obj COther None ∅)) /\
  (forall n, n ∉ names -> m !! n = None).
Proof.
  revert h m h'. induction names as [|n ns IH]; intros h m h' E;
    cbn [alloc_methods] in E.
  - injection E as <- <-. split; [auto|]. split.
    + intros n Hn. apply elem_of_nil in Hn. destruct Hn.
    + intros n _. apply lookup_empty.
  - destruct (alloc h (Obj COther None ∅)) as [l h1] eqn:Ea.
    destruct (alloc_methods ns h1) as [m1 h2] eqn:Em. injection E as <- <-.
    destruct (IH _ _ _ Em) as (Hfr & Hin & Hout).
    pose proof (alloc_spec _ _ _ _ Ea) as [Hl E1].
    assert (H1l : h1 !! l = Some (Obj COther None ∅)).
    { rewrite E1. apply lookup_insert_eq. }
    split; [|split].
    + intros k ok Hk. apply Hfr. exact (alloc_lookup_old _ _ _ _ _ _ Ea Hk).
    + intros n' Hn'. destruct (decide (n' = n)) as [->|Hne].
      * exists l. rewrite lookup_insert_eq. split; [reflexivity|].
        split; [exact Hl|]. apply Hfr, H1l.
      * apply elem_of_cons in Hn' as [->|Hn']; [congruence|].
        destruct (Hin n' Hn') as (f & Hm & Hf & Hf').
        exists f. rewrite lookup_insert_ne by congruence.
        split; [exact Hm|]. split; [|exact Hf'].
        destruct (h !! f) as [ok|] eqn:Hk; [|reflexivity].
        rewrite (alloc_lookup_old _ _ _ _ _ _ Ea Hk) in Hf. discriminate.
    + intros n' Hn'. apply not_elem_of_cons in Hn' as [Hne Hn'].
      rewrite lookup_insert_ne by congruence. apply Hout, Hn'.
Qed.

Lemma method_names_not_props n :
  n ∈ method_names ->
  n <> "__isHoneycombHex" /\ n <> "orientation" /\ n <> "origin" /\ n <> "size".
Proof.
  unfold method_names. rewrite !elem_of_cons. intros H.
  repeat (destruct H as [->|H]; [repeat split; discriminate|]).
  apply elem_of_nil in H. destruct H.
Qed.

Lemma zero_point_frame v (h : heap) k (ok : object) :
  h !! k = Some ok -> (zero_point v h).2 !! k = Some ok.
Proof.
  intros Hk. unfold zero_point.
  destruct (alloc h (Obj CObject None (xy_props (VNum 0) (VNum 0)))) as [l h'] eqn:Ea.
  exact (alloc_lookup_old _ _ _ _ _ _ Ea Hk).
Qed.

Section CreateFactoryFacts.

Variable POINTY : value.
Variable Point : value -> heap -> value * heap.

(** [../point] is not among the sources: [Point] is assumed to write to no
    object that exists when it is called. *)
Hypothesis Point_frame :
  forall v (h : heap) k (ok : object), h !! k = Some ok -> (Point v h).2 !! k = Some ok.

Lemma default_props_origin methods :
  default_props POINTY methods !! "origin" = Some (VNum 0).
Proof.
  unfold default_props. rewrite !lookup_insert_ne by discriminate.
  apply lookup_insert_eq.
Qed.

(** [finalPrototype] after [createFactory]: the defaults, the own properties
    of the argument over them, and the origin made a point. *)
Lemma createFactory_spec prototype h fp hf :
  valid h prototype ->
  createFactory POINTY Point prototype h = (fp, hf) ->
  exists methods h3,
    h !! fp = None /\
    (forall k (ok : object), h !! k = Some ok -> hf !! k = Some ok) /\
    (forall n, n ∈ method_names ->
       exists f, methods !! n = Some (VRef f) /\ h !! f = None /\
                 hf !! f = Some (Obj COther None ∅)) /\
    (forall n, n ∉ method_names -> methods !! n = None) /\
    hf !! fp =
      Some (Obj CObject None
              (<["origin" :=
                   (Point (default (VNum 0) (own_props h prototype !! "origin")) h3).1]>
                 (own_props h prototype ∪ default_props POINTY methods))).
Proof.
  intros Hv E. unfold createFactory in E.
  destruct (default_param prototype h) as [p' h0] eqn:Ed.
  pose proof (default_param_spec _ _ _ _ Ed) as (_ & _ & Hval & Hfr0 & _).
  pose proof (default_param_alias _ _ _ _ Ed) as [Eown _].
  destruct (alloc_methods method_names h0) as [methods h1] eqn:Em.
  destruct (alloc_methods_spec _ _ _ _ Em) as (Hfr1 & Hin & Hout).
  fold (default_props POINTY methods) in E.
  destruct (alloc h1 (Obj CObject None (default_props POINTY methods))) as [fp' h2] eqn:Ea.
  pose proof (alloc_spec _ _ _ _ Ea) as [Hfp E2].
  set (h3 := assign_from h2 fp' p') in *.
  destruct (Point (Get h3 (VRef fp') "origin") h3) as [origin h4] eqn:EP.
  injection E as <- <-.
  assert (Hfr2 : forall k (ok : object), h !! k = Some ok -> h2 !! k = Some ok).
  { intros k ok Hk. exact (alloc_lookup_old _ _ _ _ _ _ Ea (Hfr1 _ _ (Hfr0 _ _ Hk))). }
  assert (H2fp : h2 !! fp' = Some (Obj CObject None (default_props POINTY methods))).
  { rewrite E2. apply lookup_insert_eq. }
  assert (Eown2 : own_props h2 p' = own_props h prototype).
  { rewrite <- Eown. apply own_props_frame; [|exact (Hval Hv)].
    intros k ok Hk. exact (alloc_lookup_old _ _ _ _ _ _ Ea (Hfr1 _ _ Hk)). }
  assert (H3fp : h3 !! fp' =
            Some (Obj CObject None (own_props h prototype ∪ default_props POINTY methods))).
  { unfold h3, assign_from. rewrite (set_props_lookup _ _ _ _ H2fp), Eown2. reflexivity. }
  assert (EG : Get h3 (VRef fp') "origin" =
               default (VNum 0) (own_props h prototype !! "origin")).
  { rewrite (Get_reads_own h3 fp' _ "origin" H3fp) by (right; reflexivity).
    unfold field. simpl. rewrite lookup_union, default_props_origin.
    destruct (own_props h prototype !! "origin") as [v|]; reflexivity. }
  assert (Hfr4 : forall k (ok : object), h3 !! k = Some ok -> h4 !! k = Some ok).
  { intros k ok Hk. pose proof (Point_frame (Get h3 (VRef fp') "origin") h3 k ok Hk) as F.
    rewrite EP in F. exact F. }
  exists methods, h3.
  assert (Hfp0 : h !! fp' = None).
  { destruct (h !! fp') as [ok|] eqn:Hk; [|reflexivity].
    rewrite (Hfr1 _ _ (Hfr0 _ _ Hk)) in Hfp. discriminate. }
  assert (Hkeep : forall k (ok : object), h2 !! k = Some ok -> k <> fp' ->
            set_props h4 fp' {["origin" := origin]} !! k = Some ok).
  { intros k ok Hk Hne. rewrite set_props_lookup_ne by congruence.
    apply Hfr4. unfold h3, assign_from. rewrite set_props_lookup_ne by congruence.
    exact Hk. }
  split; [exact Hfp0|]. split; [|split; [|split; [exact Hout|]]].
  - intros k ok Hk. apply Hkeep; [exact (Hfr2 _ _ Hk)|congruence].
  - intros n Hn. destruct (Hin n Hn) as (f & Hm & Hf & Hf').
    exists f. split; [exact Hm|]. split.
    + destruct (h !! f) as [ok|] eqn:Hk; [|reflexivity].
      rewrite (Hfr0 _ _ Hk) in Hf. discriminate.
    + apply Hkeep; [exact (alloc_lookup_old _ _ _ _ _ _ Ea Hf')|congruence].
  - rewrite (set_props_lookup _ _ _ _ (Hfr4 _ _ H3fp)). simpl.
    rewrite <- insert_union_singleton_l.
    rewrite <- EG, EP. reflexivity.
Qed.

(** X12. For a [prototype] argument with no own key named [__proto__],
    [createFactory] builds [finalPrototype] as a new object and copies onto
    it every own property of the argument, which overrides a default of the
    same name ([origin] apart, which line 83 replaces). The argument itself
    and every other object of the store are left unchanged. *)
Theorem X12_createFactory_custom_overrides prototype (h : heap) (fp : loc) (hf : heap) :
  valid h prototype -> no_proto_key (own_props h prototype) = true ->
  createFactory POINTY Point prototype h = (fp, hf) ->
  h !! fp = None /\
  (forall k ok, h !! k = Some ok -> hf !! k = Some ok) /\
  exists o,
    hf !! fp = Some o /\ cls o = CObject /\ proto o = None /\
    forall k v, k <> "origin" -> own_props h prototype !! k = Some v ->
                props o !! k = Some v.
Proof.
  intros Hv _ E.
  destruct (createFactory_spec prototype h fp hf Hv E)
    as (methods & h3 & Hfp & Hfr & _ & _ & Hf).
  split; [exact Hfp|]. split; [exact Hfr|].
  eexists. split; [exact Hf|]. split; [reflexivity|]. split; [reflexivity|].
  intros k v Hk Hown. simpl. rewrite lookup_insert_ne by congruence.
  apply lookup_union_Some_l. exact Hown.
Qed.

(** X13. What [finalPrototype] holds for the keys that the [prototype]
    argument does not give: [__isHoneycombHex] is [true], [orientation] is
    [ORIENTATIONS.POINTY], [size] is [1], each of the eighteen method names
    of lines 61-78 is a key, and there is no further key. *)
Theorem X13_createFactory_defaults prototype (h : heap) (fp : loc) (hf : heap) :
  valid h prototype ->
  createFactory POINTY Point prototype h = (fp, hf) ->
  exists o,
    hf !! fp = Some o /\
    (own_props h prototype !! "__isHoneycombHex" = None ->
     props o !! "__isHoneycombHex" = Some (VBool true)) /\
    (own_props h prototype !! "orientation" = None ->
     props o !! "orientation" = Some POINTY) /\
    (own_props h prototype !! "size" = None -> props o !! "size" = Some (VNum 1)) /\
    (forall n, n ∈ method_names -> own_props h prototype !! n = None ->
       is_Some (props o !! n)) /\
    (forall k, k ∉ method_names ->
       k <> "__isHoneycombHex" -> k <> "orientation" -> k <> "origin" -> k <> "size" ->
       own_props h prototype !! k = None -> props o !! k = None).
Proof.
  intros Hv E.
  destruct (createFactory_spec prototype h fp hf Hv E)
    as (methods & h3 & _ & _ & Hin & Hout & Hf).
  eexists. split; [exact Hf|]. simpl.
  assert (Hd : forall k, k <> "origin" -> own_props h prototype !! k = None ->
            (<["origin" :=
                 (Point (default (VNum 0) (own_props h prototype !! "origin")) h3).1]>
               (own_props h prototype ∪ default_props POINTY methods)) !! k =
            default_props POINTY methods !! k).
  { intros k Hk Hown. rewrite lookup_insert_ne by congruence.
    apply lookup_union_r. exact Hown. }
  split; [|split; [|split; [|split]]].
  - intros Hown. rewrite Hd by (discriminate || exact Hown).
    unfold default_props. apply lookup_insert_eq.
  - intros Hown. rewrite Hd by (discriminate || exact Hown).
    unfold default_props. rewrite !lookup_insert_ne by discriminate.
    apply lookup_insert_eq.
  - intros Hown. rewrite Hd by (discriminate || exact Hown).
    unfold default_props. rewrite !lookup_insert_ne by discriminate.
    apply lookup_insert_eq.
  - intros n Hn Hown. destruct (method_names_not_props n Hn) as (N1 & N2 & N3 & N4).
    destruct (Hin n Hn) as (f & Hm & _ & Hf').
    exists (VRef f). rewrite Hd by assumption. unfold default_props.
    rewrite !lookup_insert_ne by congruence. exact Hm.
  - intros k Hk N1 N2 N3 N4 Hown. rewrite Hd by assumption. unfold default_props.
    rewrite !lookup_insert_ne by congruence. apply Hout, Hk.
Qed.

(** X14. The [origin] of [finalPrototype] is the result of [Point], applied
    to the [origin] of the [prototype] argument when it has one and to [0]
    otherwise (lines 57, 80 and 83). *)
Theorem X14_createFactory_origin_is_a_point prototype (h : heap) (fp : loc) (hf : heap) :
  valid h prototype ->
  createFactory POINTY Point prototype h = (fp, hf) ->
  exists h3,
    own_prop hf (VRef fp) "origin" =
    (Point (default (VNum 0) (own_props h prototype !! "origin")) h3).1.
Proof.
  intros Hv E.
  destruct (createFactory_spec prototype h fp hf Hv E)
    as (methods & h3 & _ & _ & _ & _ & Hf).
  exists h3. unfold own_prop. rewrite Hf. simpl. rewrite lookup_insert_eq. reflexivity.
Qed.

(** X15. [createFactory] and [Hex] together: a hex built from positional
    arguments by the factory of a custom prototype with no own key named
    [__proto__] reads the properties of that prototype (other than [x], [y]
    and [origin]) through its prototype chain; its [size] is the custom one,
    or [1], and its [__isHoneycombHex] the custom one, or [true]. *)
Theorem X15_factory_hex_reads_prototype prototype (h : heap) (fp : loc) (h1 : heap) fuel x y :
  valid h prototype -> no_proto_key (own_props h prototype) = true ->
  createFactory POINTY Point prototype h = (fp, h1) ->
  valid h1 x -> valid h1 y -> isObject h1 x = false -> isArray h1 x = false ->
  exists t hf,
    Hex fp (S fuel) VUndefined x y VUndefined h1 = Ok (t, hf) /\
    (forall k v, k <> "x" -> k <> "y" -> k <> "origin" ->
       own_props h prototype !! k = Some v -> Get hf (VRef t) k = v) /\
    Get hf (VRef t) "size" = default (VNum 1) (own_props h prototype !! "size") /\
    Get hf (VRef t) "__isHoneycombHex" =
      default (VBool true) (own_props h prototype !! "__isHoneycombHex").
Proof.
  intros Hv _ E Hx Hy Ho Ha.
  destruct (createFactory_spec prototype h fp h1 Hv E)
    as (methods & h3 & _ & _ & _ & _ & Hf).
  destruct (Hex_scalar_ok fp fuel VUndefined x y VUndefined h1 Hx Hy I Ho Ha)
    as (t & hf & o & EH & _ & Ht & _ & Hpr & _ & _ & Hp & Hfr); [discriminate|].
  specialize (Hp eq_refl). simpl in Hp. rewrite (right_id_L ∅ (∪)) in Hp.
  assert (Hffp := Hfr _ _ Hf ltac:(discriminate)).
  assert (HG : forall k v, k <> "x" -> k <> "y" -> k <> "origin" ->
            (own_props h prototype ∪ default_props POINTY methods) !! k = Some v ->
            Get hf (VRef t) k = v).
  { intros k v Nx Ny No Hk.
    eapply (Get_inherited hf t o fp); [exact Ht| |exact Hpr|exact Hffp|].
    - rewrite Hp. apply xy_props_other; assumption.
    - cbn [props]. rewrite lookup_insert_ne by congruence. exact Hk. }
  exists t, hf. split; [exact EH|]. split; [|split].
  - intros k v Nx Ny No Hown. apply (HG k v Nx Ny No).
    apply lookup_union_Some_l. exact Hown.
  - apply HG; try discriminate. rewrite lookup_union.
    assert (Ed : default_props POINTY methods !! "size" = Some (VNum 1)).
    { unfold default_props. rewrite !lookup_insert_ne by discriminate.
      apply lookup_insert_eq. }
    rewrite Ed. destruct (own_props h prototype !! "size"); reflexivity.
  - apply HG; try discriminate. rewrite lookup_union.
    assert (Ed : default_props POINTY methods !! "__isHoneycombHex" = Some (VBool true)).
    { unfold default_props. apply lookup_insert_eq. }
    rewrite Ed. destruct (own_props h prototype !! "__isHoneycombHex"); reflexivity.
Qed.

End CreateFactoryFacts.

Lemma custom_factory_eq :
  createFactory (VStr "POINTY") zero_point (VRef custom_prototype.1) custom_prototype.2
  = (custom_factory.1, custom_factory.2).
Proof. apply surjective_pairing. Qed.

Lemma custom_prototype_valid : valid custom_prototype.2 (VRef custom_prototype.1).
Proof. vm_compute. eauto. Qed.

Lemma custom_prototype_no_proto_key :
  no_proto_key (own_props custom_prototype.2 (VRef custom_prototype.1)) = true.
Proof. vm_compute. reflexivity. Qed.

(** The factory of [{ size: 50, customProperty: "custom" }]. *)
Lemma X12_witness :
  custom_prototype.2 !! custom_factory.1 = None /\
  (forall k ok, custom_prototype.2 !! k = Some ok -> custom_factory.2 !! k = Some ok) /\
  exists o,
    custom_factory.2 !! custom_factory.1 = Some o /\ cls o = CObject /\ proto o = None /\
    forall k v, k <> "origin" ->
                own_props custom_prototype.2 (VRef custom_prototype.1) !! k = Some v ->
                props o !! k = Some v.
Proof.
  exact (X12_createFactory_custom_overrides (VStr "POINTY") zero_point zero_point_frame
           (VRef custom_prototype.1) custom_prototype.2 custom_factory.1 custom_factory.2
           custom_prototype_valid custom_prototype_no_proto_key custom_factory_eq).
Defined.

(** The defaults left by [{ size: 50, customProperty: "custom" }]. *)
Lemma X13_witness :
  exists o,
    custom_factory.2 !! custom_factory.1 = Some o /\
    (own_props custom_prototype.2 (VRef custom_prototype.1) !! "__isHoneycombHex" = None ->
     props o !! "__isHoneycombHex" = Some (VBool true)) /\
    (own_props custom_prototype.2 (VRef custom_prototype.1) !! "orientation" = None ->
     props o !! "orientation" = Some (VStr "POINTY")) /\
    (own_props custom_prototype.2 (VRef custom_prototype.1) !! "size" = None ->
     props o !! "size" = Some (VNum 1)) /\
    (forall n, n ∈ method_names ->
       own_props custom_prototype.2 (VRef custom_prototype.1) !! n = None ->
       is_Some (props o !! n)) /\
    (forall k, k ∉ method_names ->
       k <> "__isHoneycombHex" -> k <> "orientation" -> k <> "origin" -> k <> "size" ->
       own_props custom_prototype.2 (VRef custom_prototype.1) !! k = None ->
       props o !! k = None).
Proof.
  exact (X13_createFactory_defaults (VStr "POINTY") zero_point zero_point_frame
           (VRef custom_prototype.1) custom_prototype.2 custom_factory.1 custom_factory.2
           custom_prototype_valid custom_factory_eq).
Defined.

(** The origin of the factory of [{ size: 50, customProperty: "custom" }]. *)
Lemma X14_witness :
  exists h3,
    own_prop custom_factory.2 (VRef custom_factory.1) "origin" =
    (zero_point
       (default (VNum 0)
          (own_props custom_prototype.2 (VRef custom_prototype.1) !! "origin")) h3).1.
Proof.
  exact (X14_createFactory_origin_is_a_point (VStr "POINTY") zero_point zero_point_frame
           (VRef custom_prototype.1) custom_prototype.2 custom_factory.1 custom_factory.2
           custom_prototype_valid custom_factory_eq).
Defined.

(** [Hex(5, -1)] of the factory of [{ size: 50, customProperty: "custom" }]. *)
Lemma X15_witness :
  exists t hf,
    Hex custom_factory.1 1 VUndefined (VNum 5) (VNum (-1)) VUndefined custom_factory.2
      = Ok (t, hf) /\
    (forall k v, k <> "x" -> k <> "y" -> k <> "origin" ->
       own_props custom_prototype.2 (VRef custom_prototype.1) !! k = Some v ->
       Get hf (VRef t) k = v) /\
    Get hf (VRef t) "size" =
      default (VNum 1) (own_props custom_prototype.2 (VRef custom_prototype.1) !! "size") /\
    Get hf (VRef t) "__isHoneycombHex" =
      default (VBool true)
        (own_props custom_prototype.2 (VRef custom_prototype.1) !! "__isHoneycombHex").
Proof.
  apply (X15_factory_hex_reads_prototype (VStr "POINTY") zero_point zero_point_frame
           (VRef custom_prototype.1) custom_prototype.2 custom_factory.1 custom_factory.2
           0 (VNum 5) (VNum (-1)) custom_prototype_valid custom_prototype_no_proto_key
           custom_factory_eq).
  - exact I.
  - exact I.
  - reflexivity.
  - reflexivity.
Defined.
